(** * WSGI entry point of Saleor: wrappers around the Django handler

    A shallow embedding of [saleor/wsgi/__init__.py]: the body
    normalisation wrapper [wsgi_input_middleware], the warmup routine
    [warmup_application], the CORS wrapper [cors_middleware] and the
    module-level wiring.

    Python objects live in a heap and are passed by reference, so the
    in-place mutations of the source ([environ[...] = ...],
    [response_headers.extend(...)], [input_stream.read()]) are visible
    through every alias.  Callables (applications, [start_response]) are
    Rocq functions in a state-and-exception monad. *)

From Stdlib Require Import ZArith Ascii String Strings.Byte DecimalString DecimalZ DecimalFacts.
From stdpp Require Import gmap strings list fin_maps.

Local Open Scope Z_scope.
Local Open Scope string_scope.

(** ** Values, exceptions and objects *)

Definition loc := positive.

(** The Python values that occur in a request environment or a header
    list.  Floats are left out: PEP 3333 environments hold strings,
    streams and flags. *)
Inductive value :=
| VNone
| VBool (b : bool)
| VInt (z : Z)
| VStr (s : string)
| VBytes (bs : list byte)
| VTuple2 (a b : value)
| VRef (l : loc).

(** An exception instance: the names of its class and of the ancestors of
    its class (the method resolution order), and the text of [str(e)]. *)
Record exn := Exn { exn_mro : list string; exn_str : string }.

Definition isinstance (e : exn) (cls : string) : bool :=
  bool_decide (cls ∈ exn_mro e).

Definition ValueError (msg : string) : exn :=
  Exn ["ValueError"; "Exception"; "BaseException"; "object"] msg.
Definition TypeError (msg : string) : exn :=
  Exn ["TypeError"; "Exception"; "BaseException"; "object"] msg.
Definition AttributeError (msg : string) : exn :=
  Exn ["AttributeError"; "Exception"; "BaseException"; "object"] msg.
Definition KeyError (msg : string) : exn :=
  Exn ["KeyError"; "LookupError"; "Exception"; "BaseException"; "object"] msg.
Definition KeyboardInterrupt : exn :=
  Exn ["KeyboardInterrupt"; "BaseException"; "object"] "".

(** Heap objects. [OBytesIO buf pos] is an [io.BytesIO]; [OStream pending]
    is a one-shot input stream of the host server whose [read()] hands out
    the pending bytes; [OFaultyStream e] has a [read] attribute whose call
    raises [e]; [OSimpleLazy f] is a [SimpleLazyObject] around the function
    named [f]; [OOpaque] is any other object (no [read], no [extend], no
    integer conversion). *)
Inductive obj :=
| ODict (d : gmap string value)
| OList (xs : list value)
| OBytesIO (buf : list byte) (pos : nat)
| OStream (pending : list byte)
| OFaultyStream (e : exn)
| OSimpleLazy (f : string)
| OOpaque.

(** A record handed to the [logging] module. *)
Record log_record := LogRecord {
  lr_logger : string;
  lr_level : string;
  lr_msg : string;
  lr_exc_info : bool
}.

(** What the process has done that an observer outside it can see: the
    records logged, the status lines and header lists with which the host
    server's [start_response] was called, and the requests a handler has
    noted on entry. *)
Inductive event :=
| Logged (r : log_record)
| ResponseStarted (status : value) (headers : list value)
| HandlerEntered (environ : gmap string value).

Record world := World {
  heap : gmap loc obj;
  trace : list event
}.

(** ** The monad of Python computations *)

Inductive outcome (A : Type) :=
| Ok (a : A)
| Raise (e : exn).
Arguments Ok {A} a.
Arguments Raise {A} e.

Definition M (A : Type) : Type := world -> outcome A * world.

Definition ret {A} (a : A) : M A := fun w => (Ok a, w).

Definition raise {A} (e : exn) : M A := fun w => (Raise e, w).

Definition bind {A B} (c : M A) (k : A -> M B) : M B :=
  fun w =>
    match c w with
    | (Ok a, w') => k a w'
    | (Raise e, w') => (Raise e, w')
    end.

Declare Scope py_scope.
Delimit Scope py_scope with py.
Notation "'let*' x ':=' c 'in' k" := (bind c (fun x => k))
  (at level 10, x name, c at level 100, k at level 200) : py_scope.
Notation "c ';;' k" := (bind c (fun _ => k))
  (at level 100, k at level 200, right associativity) : py_scope.
Local Open Scope py_scope.

(** [try: body except (classes): handler].  A raised exception is caught
    when it is an instance of one of [classes]; the handler runs in the
    world the body left behind. *)
Definition try_except {A} (body : M A) (classes : list string)
    (handler : exn -> M A) : M A :=
  fun w =>
    match body w with
    | (Ok a, w') => (Ok a, w')
    | (Raise e, w') =>
        if existsb (isinstance e) classes then handler e w' else (Raise e, w')
    end.

Definition when (b : bool) (c : M unit) : M unit :=
  if b then c else ret tt.

Definition lift_outcome {A} (o : outcome A) : M A := fun w => (o, w).

(** ** Heap primitives *)

Definition alloc (o : obj) : M value :=
  fun w =>
    let l := fresh (dom (heap w)) in
    (Ok (VRef l), World (<[l := o]> (heap w)) (trace w)).

Definition deref (v : value) : M (option obj) :=
  fun w =>
    match v with
    | VRef l => (Ok (heap w !! l), w)
    | _ => (Ok None, w)
    end.

Definition store (l : loc) (o : obj) : M unit :=
  fun w => (Ok tt, World (<[l := o]> (heap w)) (trace w)).

(** [key in d] *)
Definition dict_contains (d : value) (key : string) : M bool :=
  let* o := deref d in
  match o with
  | Some (ODict m) => ret (if m !! key is Some _ then true else false)
  | _ => raise (TypeError "argument is not a dict")
  end.

(** [d[key]] *)
Definition dict_getitem (d : value) (key : string) : M value :=
  let* o := deref d in
  match o with
  | Some (ODict m) =>
      match m !! key with
      | Some v => ret v
      | None => raise (KeyError key)
      end
  | _ => raise (TypeError "object is not subscriptable")
  end.

(** [d.get(key)] *)
Definition dict_get (d : value) (key : string) : M value :=
  let* o := deref d in
  match o with
  | Some (ODict m) => ret (default VNone (m !! key))
  | _ => raise (AttributeError "object has no attribute 'get'")
  end.

(** [d[key] = v] *)
Definition dict_setitem (d : value) (key : string) (v : value) : M unit :=
  let* o := deref d in
  match d, o with
  | VRef l, Some (ODict m) => store l (ODict (<[key := v]> m))
  | _, _ => raise (TypeError "object does not support item assignment")
  end.

(** [hasattr(v, 'read')] *)
Definition hasattr_read (v : value) : M bool :=
  let* o := deref v in
  match o with
  | Some (OBytesIO _ _) | Some (OStream _) | Some (OFaultyStream _) => ret true
  | _ => ret false
  end.

(** [v.read()]: everything from the current position to the end, leaving
    the stream at its end. *)
Definition call_read (v : value) : M value :=
  let* o := deref v in
  match v, o with
  | VRef l, Some (OBytesIO buf pos) =>
      store l (OBytesIO buf (Nat.max pos (length buf)));;
      ret (VBytes (drop pos buf))
  | VRef l, Some (OStream pending) =>
      store l (OStream []);;
      ret (VBytes pending)
  | _, Some (OFaultyStream e) => raise e
  | _, _ => raise (AttributeError "object has no attribute 'read'")
  end.

(** [v.seek(n)] *)
Definition call_seek (v : value) (n : nat) : M value :=
  let* o := deref v in
  match v, o with
  | VRef l, Some (OBytesIO buf _) =>
      store l (OBytesIO buf n);;
      ret (VInt (Z.of_nat n))
  | _, _ => raise (AttributeError "object is not seekable")
  end.

(** [BytesIO(initial)] *)
Definition new_BytesIO (initial : value) : M value :=
  match initial with
  | VBytes bs => alloc (OBytesIO bs 0)
  | _ => raise (TypeError "a bytes-like object is required")
  end.

(** [type(v).__name__] as it appears in error messages, for the values
    whose class is fixed here; the streams of a host server and the other
    objects, whose class is not, go by ["object"]. *)
Definition type_name (w : world) (v : value) : string :=
  match v with
  | VNone => "NoneType"
  | VBool _ => "bool"
  | VInt _ => "int"
  | VStr _ => "str"
  | VBytes _ => "bytes"
  | VTuple2 _ _ => "tuple"
  | VRef l =>
      match heap w !! l with
      | Some (ODict _) => "dict"
      | Some (OList _) => "list"
      | Some (OBytesIO _ _) => "_io.BytesIO"
      | _ => "object"
      end
  end.

(** The [AttributeError] of a failed [v.attr]. *)
Definition no_attribute {A} (v : value) (attr : string) : M A :=
  fun w =>
    (Raise (AttributeError
              ("'" ++ type_name w v ++ "' object has no attribute '"
               ++ attr ++ "'")), w).

(** [lst.extend(items)] *)
Definition list_extend (lst : value) (items : list value) : M unit :=
  let* o := deref lst in
  match lst, o with
  | VRef l, Some (OList xs) => store l (OList (xs ++ items))
  | _, _ => no_attribute lst "extend"
  end.

(** Truth value of [v], as tested by [if v:]. *)
Definition truthy (v : value) : M bool :=
  match v with
  | VNone => ret false
  | VBool b => ret b
  | VInt z => ret (negb (Z.eqb z 0))
  | VStr s => ret (negb (String.eqb s ""))
  | VBytes bs => ret (negb (bool_decide (bs = [])))
  | VTuple2 _ _ => ret true
  | VRef _ =>
      let* o := deref v in
      match o with
      | Some (ODict m) => ret (negb (bool_decide (m = ∅)))
      | Some (OList xs) => ret (negb (bool_decide (length xs = 0%nat)))
      | _ => ret true
      end
  end.

(** [v == s] for a string literal [s]. *)
Definition eq_str (v : value) (s : string) : bool :=
  match v with
  | VStr t => String.eqb t s
  | _ => false
  end.

(** [logging.getLogger(name).warning(msg, exc_info=...)] *)
Definition logger_warning (name msg : string) (exc_info : bool) : M unit :=
  fun w => (Ok tt, World (heap w) (trace w ++ [Logged (LogRecord name "WARNING" msg exc_info)])).

(** ** [int(x)] *)

Section Interpreter.

(** [sys.get_int_max_str_digits()]: the interpreter's bound on the number
    of digits that [int()] converts from text.  Zero switches the bound
    off, which is also the behaviour of interpreters that predate it. *)
Variable int_max_str_digits : nat.

Definition digit_value (c : ascii) : option Z :=
  let n := N_of_ascii c in
  if ((48 <=? n) && (n <=? 57))%N then Some (Z.of_N n - 48) else None.

(** White space of the C locale ([Py_ISSPACE]): tab, line feed, vertical
    tab, form feed, carriage return and space. *)
Definition is_c_space (c : ascii) : bool :=
  let n := N_of_ascii c in
  (((9 <=? n) && (n <=? 13)) || (n =? 32))%N.

(** A [str] is first rewritten so that white space beyond ASCII becomes a
    space; among the code points below 256, the ones a WSGI string can
    hold, these are NEL (133) and NBSP (160). *)
Definition is_str_space (c : ascii) : bool :=
  let n := N_of_ascii c in
  (is_c_space c || (n =? 133) || (n =? 160))%N.

Fixpoint skip_spaces (space : ascii -> bool) (s : list ascii) : list ascii :=
  match s with
  | c :: r => if space c then skip_spaces space r else s
  | [] => []
  end.

(** The run of digits and single underscores at the head of [s]: its
    value, the number of digits in it, and what follows it.  [None] when
    two underscores meet or the run ends in one. *)
Fixpoint scan_digits (s : list ascii) (acc : Z) (digits : nat)
    (prev_underscore : bool) : option (Z * nat * list ascii) :=
  match s with
  | [] => if prev_underscore then None else Some (acc, digits, [])
  | c :: r =>
      match digit_value c with
      | Some d => scan_digits r (10 * acc + d) (S digits) false
      | None =>
          if Ascii.eqb c "_"
          then (if prev_underscore then None else scan_digits r acc digits true)
          else (if prev_underscore then None else Some (acc, digits, s))
      end
  end.

Definition exceeds_digit_limit (digits : nat) : bool :=
  ((640 <? digits) && (0 <? int_max_str_digits)
   && (int_max_str_digits <? digits))%nat.

(** Base-10 conversion of text: optional white space, an optional sign,
    digits with single underscores between them, optional white space.
    [None] stands for [ValueError]. *)
Definition parse_int (space : ascii -> bool) (s : list ascii) : option Z :=
  let s1 := skip_spaces space s in
  let '(negative, s2) :=
    match s1 with
    | c :: r =>
        if Ascii.eqb c "+" then (false, r)
        else if Ascii.eqb c "-" then (true, r)
        else (false, s1)
    | [] => (false, s1)
    end in
  match s2 with
  | c :: _ => if Ascii.eqb c "_" then None else
      match scan_digits s2 0 0 false with
      | Some (n, digits, rest) =>
          if (digits =? 0)%nat then None
          else if exceeds_digit_limit digits then None
          else match skip_spaces space rest with
               | [] => Some (if negative then - n else n)
               | _ :: _ => None
               end
      | None => None
      end
  | [] => None
  end.

Definition py_int (v : value) : outcome Z :=
  match v with
  | VInt z => Ok z
  | VBool b => Ok (if b then 1 else 0)
  | VStr s =>
      match parse_int is_str_space (list_ascii_of_string s) with
      | Some z => Ok z
      | None => Raise (ValueError "invalid literal for int() with base 10")
      end
  | VBytes bs =>
      match parse_int is_c_space (map ascii_of_byte bs) with
      | Some z => Ok z
      | None => Raise (ValueError "invalid literal for int() with base 10")
      end
  | VNone | VTuple2 _ _ | VRef _ =>
      Raise (TypeError "int() argument must be a string, a bytes-like object or a real number")
  end.

(** ** Applications and callbacks *)

(** What iterating a response body to exhaustion does: the chunks it
    yields, or the exception raised on the way. *)
Definition iterable : Type := M (list value).

Definition start_response_t : Type := value -> value -> M value.

Definition wsgi_app : Type := value -> start_response_t -> M iterable.

(** A list literal used as a response body. *)
Definition iter_of_list (chunks : list value) : iterable := ret chunks.

(** [list(it)] *)
Definition py_list (it : iterable) : M (list value) := it.

(** ** The body-normalisation wrapper *)

Definition wsgi_input_middleware (application : wsgi_app) : wsgi_app :=
  fun environ start_response =>
    (let* has_input := dict_contains environ "wsgi.input" in
     when has_input
       (let* input_stream := dict_getitem environ "wsgi.input" in
        let* readable := hasattr_read input_stream in
        when readable
          (let* body := call_read input_stream in
           let* buffer := new_BytesIO body in
           dict_setitem environ "wsgi.input" buffer));;
     let* has_length := dict_contains environ "CONTENT_LENGTH" in
     when has_length
       (try_except
          (let* raw := dict_getitem environ "CONTENT_LENGTH" in
           let* n := lift_outcome (py_int raw) in
           dict_setitem environ "CONTENT_LENGTH" (VInt n))
          ["ValueError"; "TypeError"]
          (fun _ => dict_setitem environ "CONTENT_LENGTH" (VInt 0)));;
     application environ start_response)%py.

(** ** Warmup *)

(** The bytes of an ASCII literal, as in [b"{}"]. *)
Definition b (s : string) : list byte := list_byte_of_string s.

(** The [environ] literal of [warmup_application], given the references of
    the two buffers it holds and of the lazy host name. *)
Definition warmup_environ (errors server_name input : value)
    : gmap string value :=
  <["wsgi.errors" := errors]>
  (<["wsgi.url_scheme" := VStr "http"]>
  (<["wsgi.multithread" := VBool false]>
  (<["wsgi.multiprocess" := VBool true]>
  (<["wsgi.run_once" := VBool false]>
  (<["REQUEST_METHOD" := VStr "POST"]>
  (<["SERVER_NAME" := server_name]>
  (<["SERVER_PORT" := VStr "80"]>
  (<["SERVER_PROTOCOL" := VStr "HTTP/1.1"]>
  (<["PATH_INFO" := VStr "/graphql/"]>
  (<["CONTENT_TYPE" := VStr "application/json"]>
  (<["HTTP_ACCEPT" := VStr "application/json"]>
  (<["CONTENT_LENGTH" := VStr "2"]>
  (<["wsgi.input" := input]> ∅))))))))))))).

(** The [start_response] that warmup hands to the application: [pass]. *)
Definition warmup_start_response : start_response_t :=
  fun status headers => ret VNone.

(** The statement [environ = {...}]: the values are built from left to
    right, then the dictionary. *)
Definition build_warmup_environ : M value :=
  (let* errors := new_BytesIO (VBytes (b "")) in
   let* server_name := alloc (OSimpleLazy "get_allowed_host_lazy") in
   let* input := new_BytesIO (VBytes (b "{}")) in
   alloc (ODict (warmup_environ errors server_name input)))%py.

(** The expression [list(app(environ, start_response))]. *)
Definition call_and_consume (app : wsgi_app) (environ : value)
    (start_response : start_response_t) : M (list value) :=
  (let* result := app environ start_response in
   py_list result)%py.

Definition warmup_application (app : wsgi_app) : M unit :=
  (let* environ := build_warmup_environ in
   try_except
     (let* _ := call_and_consume app environ warmup_start_response in
      ret tt)
     ["Exception"]
     (fun e =>
        logger_warning "saleor.wsgi"
          ("Warmup request failed: " ++ exn_str e) true))%py.

(** ** The CORS wrapper *)

Definition cors_headers (origin : value) : list value :=
  [ VTuple2 (VStr "Access-Control-Allow-Origin") origin;
    VTuple2 (VStr "Access-Control-Allow-Credentials") (VStr "true");
    VTuple2 (VStr "Access-Control-Allow-Methods") (VStr "POST, GET, OPTIONS");
    VTuple2 (VStr "Access-Control-Allow-Headers")
            (VStr "Content-Type, Authorization, authorization-bearer");
    VTuple2 (VStr "Access-Control-Max-Age") (VStr "3600");
    VTuple2 (VStr "Access-Control-Expose-Headers")
            (VStr "Content-Type, Authorization") ].

(** The closure [cors_response] of [cors_middleware], with the variables
    it captures as parameters. *)
Definition cors_response (origin : value) (start_response : start_response_t)
    : start_response_t :=
  fun status response_headers =>
    (let* has_origin := truthy origin in
     when has_origin (list_extend response_headers (cors_headers origin));;
     start_response status response_headers)%py.

Definition cors_middleware (application : wsgi_app) : wsgi_app :=
  fun environ start_response =>
    (let* origin := dict_get environ "HTTP_ORIGIN" in
     let* method := dict_get environ "REQUEST_METHOD" in
     if eq_str method "OPTIONS" then
       let* response_headers := alloc (OList []) in
       let* has_origin := truthy origin in
       if has_origin then
         cors_response origin start_response (VStr "200 OK") response_headers;;
         ret (iter_of_list [VBytes (b "")])
       else
         ret (iter_of_list [VBytes (b "")])
     else
       application environ (cors_response origin start_response))%py.

(** ** Module level: wiring and the warmup call *)

Section Wiring.

(** The Django handler and the health-check wrapper are defined outside
    this module. *)
Variable django_application : wsgi_app.
Variable health_check : wsgi_app -> string -> wsgi_app.

Definition application : wsgi_app :=
  health_check
    (cors_middleware (wsgi_input_middleware django_application))
    "/health/".

Definition module_init : M unit :=
  try_except
    (warmup_application application)
    ["Exception"]
    (fun e =>
       logger_warning "saleor.wsgi"
         ("Application warmup failed: " ++ exn_str e) false).

End Wiring.

End Interpreter.

(** ** The host server and sample applications

    The callback a host server passes in: it takes the status line and the
    header list as they are at the time of the call. *)
Definition server_start_response : start_response_t :=
  fun status headers =>
    (let* o := deref headers in
     match o with
     | Some (OList hs) =>
         (fun w => (Ok VNone, World (heap w) (trace w ++ [ResponseStarted status hs])))
     | _ => raise (TypeError "headers must be a list")
     end)%py.

(** An application that notes the request it is entered with, starts a
    plain-text response and returns one chunk. *)
Definition hello_app : wsgi_app :=
  fun environ start_response =>
    (let* o := deref environ in
     (fun w => (Ok tt, World (heap w)
                         (trace w ++ [HandlerEntered
                                        match o with
                                        | Some (ODict m) => m
                                        | _ => ∅
                                        end])));;
     let* headers := alloc (OList [VTuple2 (VStr "Content-Type") (VStr "text/plain")]) in
     start_response (VStr "200 OK") headers;;
     ret (iter_of_list [VBytes (b "hello")]))%py.

(** A callback that fails whenever it is called. *)
Definition refusing_start_response : start_response_t :=
  fun status headers =>
    raise (Exn ["AssertionError"; "Exception"; "BaseException"; "object"]
               "start_response was called").

(** An application interrupted from the keyboard while it runs. *)
Definition interrupted_app : wsgi_app :=
  fun environ start_response => raise KeyboardInterrupt.

(** An application whose handler fails with an ordinary error. *)
Definition failing_app : wsgi_app :=
  fun environ start_response =>
    raise (Exn ["RuntimeError"; "Exception"; "BaseException"; "object"] "boom").

(** An application whose body fails while it is iterated. *)
Definition failing_body_app : wsgi_app :=
  fun environ start_response =>
    ret (raise (ValueError "broken body") : iterable).

(** ** Notions used in the statements *)

(** The entry of [environ] under [key], if [environ] is a dictionary. *)
Definition stored (w : world) (environ : loc) (key : string) : option value :=
  match heap w !! environ with
  | Some (ODict m) => m !! key
  | _ => None
  end.

(** The body-normalisation wrapper gets as far as calling the application,
    and calls it in world [w']. *)
Definition reaches_application (limit : nat) (environ : value)
    (w w' : world) : Prop :=
  ∀ (app : wsgi_app) (sr : start_response_t),
    wsgi_input_middleware limit app environ sr w = app environ sr w'.

(** The body-normalisation wrapper raises [e] before the application is
    called, leaving world [w']. *)
Definition aborts (limit : nat) (environ : value) (w : world) (e : exn)
    (w' : world) : Prop :=
  ∀ (app : wsgi_app) (sr : start_response_t),
    wsgi_input_middleware limit app environ sr w = (Raise e, w').

(** The two statements of the wrapper that come before the call of the
    application, each on its own; [wsgi_input_middleware_statements] below
    shows that the wrapper is their sequence. *)
Definition rewind_input (environ : value) : M unit :=
  (let* has_input := dict_contains environ "wsgi.input" in
   when has_input
     (let* input_stream := dict_getitem environ "wsgi.input" in
      let* readable := hasattr_read input_stream in
      when readable
        (let* body := call_read input_stream in
         let* buffer := new_BytesIO body in
         dict_setitem environ "wsgi.input" buffer)))%py.

Definition coerce_content_length (limit : nat) (environ : value) : M unit :=
  (let* has_length := dict_contains environ "CONTENT_LENGTH" in
   when has_length
     (try_except
        (let* raw := dict_getitem environ "CONTENT_LENGTH" in
         let* n := lift_outcome (py_int limit raw) in
         dict_setitem environ "CONTENT_LENGTH" (VInt n))
        ["ValueError"; "TypeError"]
        (fun _ => dict_setitem environ "CONTENT_LENGTH" (VInt 0))))%py.

(** What [CONTENT_LENGTH] is set to when it holds [v]. *)
Definition coerced (limit : nat) (v : value) : Z :=
  match py_int limit v with Ok n => n | Raise _ => 0 end.

(** The world after [environ[key] = v], for [environ] at [l] with entries
    [d]. *)
Definition set_entry (w : world) (l : loc) (d : gmap string value)
    (key : string) (v : value) : world :=
  World (<[l := ODict (<[key := v]> d)]> (heap w)) (trace w).

(** The exception with which reading the input stream fails, if the
    environment holds a stream whose [read()] fails. *)
Definition input_fault (w : world) (d : gmap string value) : option exn :=
  match d !! "wsgi.input" with
  | Some (VRef s) =>
      match heap w !! s with
      | Some (OFaultyStream e) => Some e
      | _ => None
      end
  | _ => None
  end.

(** [wsgi.input] is absent, or its value has no [read] attribute. *)
Definition unreadable (w : world) (d : gmap string value) : Prop :=
  d !! "wsgi.input" = None
  ∨ ∃ v, d !! "wsgi.input" = Some v ∧ hasattr_read v w = (Ok false, w).


(** [v] is a value of a built-in class without an [extend] method: [None],
    a flag, an integer, text, bytes, a tuple, a dictionary or a
    [BytesIO]. *)
Definition has_no_extend (w : world) (v : value) : bool :=
  match v with
  | VRef l =>
      match heap w !! l with
      | Some (ODict _) | Some (OBytesIO _ _) => true
      | _ => false
      end
  | _ => true
  end.

(** The response body that a list of chunks makes up. *)
Definition body_bytes (chunks : list value) : list byte :=
  flat_map (λ v, match v with VBytes bs => bs | _ => [] end) chunks.

(** The record that [warmup_application] logs for the exception [e]. *)
Definition warmup_warning (e : exn) : event :=
  Logged (LogRecord "saleor.wsgi" "WARNING"
            ("Warmup request failed: " ++ exn_str e) true).

(** The decimal numeral of an integer, as [str(z)] prints it. *)
Definition str_of_Z (z : Z) : string := NilZero.string_of_int (Z.to_int z).

(** The digits of a numeral of the Standard Library, as characters. *)
Definition uint_chars (d : Decimal.uint) : list ascii :=
  list_ascii_of_string (NilEmpty.string_of_uint d).


(** ** Sample requests *)

Definition environ_loc : loc := 1%positive.
Definition stream_loc : loc := 2%positive.

Definition request (entries : gmap string value) : world :=
  World {[ environ_loc := ODict entries ]} [].

Definition posted_entries : gmap string value :=
  <["REQUEST_METHOD" := VStr "POST"]>
  (<["PATH_INFO" := VStr "/graphql/"]>
  (<["CONTENT_LENGTH" := VStr "5"]>
  (<["wsgi.input" := VRef stream_loc]> ∅))).

Definition posted_request : world :=
  World (<[stream_loc := OStream (b "hello")]>
           {[ environ_loc := ODict posted_entries ]}) [].

Definition get_entries (origin : option string) : gmap string value :=
  let base : gmap string value :=
    <["REQUEST_METHOD" := VStr "GET"]> (<["PATH_INFO" := VStr "/graphql/"]> ∅) in
  match origin with
  | Some o => <["HTTP_ORIGIN" := VStr o]> base
  | None => base
  end.

Definition options_entries (origin : option string) : gmap string value :=
  let base : gmap string value :=
    <["REQUEST_METHOD" := VStr "OPTIONS"]> (<["PATH_INFO" := VStr "/graphql/"]> ∅) in
  match origin with
  | Some o => <["HTTP_ORIGIN" := VStr o]> base
  | None => base
  end.



(** A request whose input stream fails when it is read. *)
Definition connection_reset : exn :=
  Exn ["OSError"; "Exception"; "BaseException"; "object"] "connection reset".

Definition faulty_request : world :=
  World (<[stream_loc := OFaultyStream connection_reset]>
           {[ environ_loc := ODict posted_entries ]}) [].

(** A request whose [CONTENT_LENGTH] is a numeral of 701 digits. *)
Definition huge_length : Z := 10 ^ 700.

Definition huge_entries : gmap string value :=
  <["CONTENT_LENGTH" := VStr (str_of_Z huge_length)]> ∅.

(** A world that holds one header list. *)
Definition headers_loc : loc := 3%positive.

Definition plain_headers : list value :=
  [VTuple2 (VStr "Content-Type") (VStr "text/plain")].

Definition world_with_headers : world :=
  World {[ headers_loc := OList plain_headers ]} [].

(** * Evaluation lemmas *)

Lemma bind_ok {A B} (c : M A) (k : A → M B) w a w' :
  c w = (Ok a, w') → bind c k w = k a w'.
Proof. intros H. unfold bind. by rewrite H. Qed.

Lemma bind_raise {A B} (c : M A) (k : A → M B) w e w' :
  c w = (Raise e, w') → bind c k w = (Raise e, w').
Proof. intros H. unfold bind. by rewrite H. Qed.

(** [run H]: take the step of a computation that [H] describes. *)
Tactic Notation "run" uconstr(H) := rewrite (bind_ok _ _ _ _ _ H).

Lemma wsgi_input_middleware_statements limit app environ sr w :
  wsgi_input_middleware limit app environ sr w
  = (rewind_input environ;; coerce_content_length limit environ;;
     app environ sr)%py w.
Proof.
  unfold wsgi_input_middleware, rewind_input, coerce_content_length, bind.
  destruct (dict_contains environ "wsgi.input" w) as [[b0|e] w1]; [|done].
  destruct (when b0 _ w1) as [[[]|e] w2]; [|done].
  by destruct (dict_contains environ "CONTENT_LENGTH" w2) as [[b1|e] w3].
Qed.

Lemma fresh_lookup (h : gmap loc obj) : h !! fresh (dom h) = None.
Proof. apply not_elem_of_dom, is_fresh. Qed.

Lemma fresh_ne (h : gmap loc obj) l o : h !! l = Some o → l ≠ fresh (dom h).
Proof. intros H ->. by rewrite fresh_lookup in H. Qed.

Lemma dict_contains_run w l d key :
  heap w !! l = Some (ODict d) →
  dict_contains (VRef l) key w
  = (Ok (if d !! key is Some _ then true else false), w).
Proof. intros H. unfold dict_contains, bind, deref. by rewrite H. Qed.

Lemma dict_getitem_run w l d key v :
  heap w !! l = Some (ODict d) → d !! key = Some v →
  dict_getitem (VRef l) key w = (Ok v, w).
Proof. intros H Hk. unfold dict_getitem, bind, deref. by rewrite H, Hk. Qed.

Lemma dict_get_run w l d key :
  heap w !! l = Some (ODict d) →
  dict_get (VRef l) key w = (Ok (default VNone (d !! key)), w).
Proof. intros H. unfold dict_get, bind, deref. by rewrite H. Qed.

Lemma dict_setitem_run w l d key v :
  heap w !! l = Some (ODict d) →
  dict_setitem (VRef l) key v w
  = (Ok tt, World (<[l := ODict (<[key := v]> d)]> (heap w)) (trace w)).
Proof. intros H. unfold dict_setitem, bind, deref. by rewrite H. Qed.

Lemma list_extend_run w l xs items :
  heap w !! l = Some (OList xs) →
  list_extend (VRef l) items w
  = (Ok tt, World (<[l := OList (xs ++ items)]> (heap w)) (trace w)).
Proof. intros H. unfold list_extend, bind, deref. by rewrite H. Qed.

Lemma server_start_response_run status h hs w :
  heap w !! h = Some (OList hs) →
  server_start_response status (VRef h) w
  = (Ok VNone, World (heap w) (trace w ++ [ResponseStarted status hs])).
Proof. intros H. unfold server_start_response, bind, deref. by rewrite H. Qed.

(** * Facts about [int()] *)

Lemma py_int_raise limit v e :
  py_int limit v = Raise e →
  existsb (isinstance e) ["ValueError"; "TypeError"] = true.
Proof.
  destruct v; simpl; try (intros [= <-]; reflexivity).
  - destruct (parse_int _ _ _); intros [= <-]; reflexivity.
  - destruct (parse_int _ _ _); intros [= <-]; reflexivity.
Qed.

Ltac eval_digit :=
  lazymatch goal with
  | |- context [digit_value ?c] =>
      let v := eval vm_compute in (digit_value c) in
      change (digit_value c) with v; cbv beta iota
  end.

Lemma scan_digits_acc d p k acc :
  acc = Z.pos p →
  scan_digits (uint_chars d) acc k false
  = Some (Z.pos (Pos.of_uint_acc d p), (k + Decimal.nb_digits d)%nat, []).
Proof.
  revert p k acc. induction d; intros p k acc ->; unfold uint_chars in *;
    cbn [NilEmpty.string_of_uint list_ascii_of_string scan_digits
         Decimal.nb_digits Pos.of_uint_acc].
  { by rewrite Nat.add_0_r. }
  all: eval_digit.
  all: lazymatch goal with
       | |- _ = Some (Z.pos (Pos.of_uint_acc _ ?q), _, _) =>
           rewrite (IHd q (S k)) by lia
       end.
  all: by rewrite Nat.add_succ_r.
Qed.

Lemma scan_digits_uint d k :
  scan_digits (uint_chars d) 0 k false
  = Some (Z.of_N (Pos.of_uint d), (k + Decimal.nb_digits d)%nat, []).
Proof.
  revert k. induction d; intros k; unfold uint_chars in *;
    cbn [NilEmpty.string_of_uint list_ascii_of_string scan_digits
         Decimal.nb_digits Pos.of_uint].
  { by rewrite Nat.add_0_r. }
  all: eval_digit.
  { change (10 * 0 + 0) with 0. rewrite (IHd (S k)). by rewrite Nat.add_succ_r. }
  all: lazymatch goal with
       | |- _ = Some (Z.of_N (N.pos (Pos.of_uint_acc _ ?q)), _, _) =>
           fold (uint_chars d); rewrite (scan_digits_acc d q (S k)) by lia
       end.
  all: by rewrite Nat.add_succ_r.
Qed.

Lemma uint_chars_head d :
  d ≠ Decimal.Nil →
  ∃ c r, uint_chars d = c :: r ∧ is_str_space c = false
         ∧ Ascii.eqb c "+" = false ∧ Ascii.eqb c "-" = false
         ∧ Ascii.eqb c "_" = false.
Proof.
  intros Hd. destruct d; [done|..]; unfold uint_chars; simpl;
    eexists _, _; (split; [reflexivity|]); by vm_compute.
Qed.


Lemma parse_int_scan limit space c r :
  space c = false → Ascii.eqb c "+" = false → Ascii.eqb c "-" = false →
  Ascii.eqb c "_" = false →
  parse_int limit space (c :: r)
  = match scan_digits (c :: r) 0 0 false with
    | Some (n, digits, rest) =>
        if (digits =? 0)%nat then None
        else if exceeds_digit_limit limit digits then None
        else match skip_spaces space rest with
             | [] => Some n
             | _ :: _ => None
             end
    | None => None
    end.
Proof.
  intros Hs Hp Hm Hu. unfold parse_int.
  cbn [skip_spaces]. rewrite Hs, Hp, Hm, Hu. reflexivity.
Qed.

Lemma parse_int_scan_neg limit space c r :
  space "-"%char = false → Ascii.eqb c "_" = false →
  parse_int limit space ("-"%char :: c :: r)
  = match scan_digits (c :: r) 0 0 false with
    | Some (n, digits, rest) =>
        if (digits =? 0)%nat then None
        else if exceeds_digit_limit limit digits then None
        else match skip_spaces space rest with
             | [] => Some (- n)
             | _ :: _ => None
             end
    | None => None
    end.
Proof.
  intros Hs Hu. unfold parse_int.
  cbn [skip_spaces]. rewrite Hs. 
  change (Ascii.eqb "-" "+") with false. change (Ascii.eqb "-" "-") with true.
  cbv beta iota. rewrite Hu. reflexivity.
Qed.

Lemma uint_chars_length d :
  length (uint_chars d) = Decimal.nb_digits d.
Proof. induction d; unfold uint_chars in *; simpl; congruence. Qed.

Lemma length_list_ascii_of_string s :
  length (list_ascii_of_string s) = String.length s.
Proof. induction s; simpl; congruence. Qed.



Lemma string_of_uint_nonnil d :
  d ≠ Decimal.Nil → NilZero.string_of_uint d = NilEmpty.string_of_uint d.
Proof. by destruct d. Qed.









Example py_int_examples :
  py_int 4300 (VStr " +1_000 ") = Ok 1000
  ∧ py_int 4300 (VStr "-42") = Ok (-42)
  ∧ py_int 4300 (VBytes (b "0012")) = Ok 12
  ∧ py_int 4300 (VBool true) = Ok 1
  ∧ py_int 4300 (VStr "12a")
    = Raise (ValueError "invalid literal for int() with base 10")
  ∧ py_int 4300 (VStr "")
    = Raise (ValueError "invalid literal for int() with base 10")
  ∧ py_int 4300 (VStr "1__0")
    = Raise (ValueError "invalid literal for int() with base 10")
  ∧ py_int 4300 VNone
    = Raise (TypeError "int() argument must be a string, a bytes-like object or a real number").
Proof. repeat split. Qed.

(** * The body-normalisation wrapper *)

Lemma coerce_content_length_run limit w l d :
  heap w !! l = Some (ODict d) →
  coerce_content_length limit (VRef l) w
  = (Ok tt, match d !! "CONTENT_LENGTH" with
            | Some v => set_entry w l d "CONTENT_LENGTH" (VInt (coerced limit v))
            | None => w
            end).
Proof.
  intros Hl. unfold coerce_content_length.
  run (dict_contains_run w l d _ Hl).
  destruct (d !! "CONTENT_LENGTH") as [v|] eqn:Hv; [|done].
  unfold when, try_except, coerced.
  run (dict_getitem_run w l d _ v Hl Hv).
  destruct (py_int limit v) as [n|e] eqn:Hn.
  - unfold bind at 1. unfold lift_outcome. by rewrite (dict_setitem_run w l d).
  - unfold bind, lift_outcome. rewrite (py_int_raise _ _ _ Hn).
    by rewrite (dict_setitem_run w l d).
Qed.

Lemma rewind_input_absent w l d :
  heap w !! l = Some (ODict d) → d !! "wsgi.input" = None →
  rewind_input (VRef l) w = (Ok tt, w).
Proof.
  intros Hl Hd. unfold rewind_input.
  run (dict_contains_run w l d _ Hl). by rewrite Hd.
Qed.

Lemma rewind_input_unreadable w l d v :
  heap w !! l = Some (ODict d) → d !! "wsgi.input" = Some v →
  hasattr_read v w = (Ok false, w) →
  rewind_input (VRef l) w = (Ok tt, w).
Proof.
  intros Hl Hd Hr. unfold rewind_input.
  run (dict_contains_run w l d _ Hl). rewrite Hd.
  unfold when at 1.
  run (dict_getitem_run w l d _ v Hl Hd).
  by run Hr.
Qed.

Lemma rewind_input_faulty w l d s e :
  heap w !! l = Some (ODict d) → d !! "wsgi.input" = Some (VRef s) →
  heap w !! s = Some (OFaultyStream e) →
  rewind_input (VRef l) w = (Raise e, w).
Proof.
  intros Hl Hd Hs. unfold rewind_input.
  run (dict_contains_run w l d _ Hl). rewrite Hd.
  unfold when at 1.
  run (dict_getitem_run w l d _ _ Hl Hd).
  unfold hasattr_read, call_read, bind, deref. by rewrite Hs; simpl; rewrite Hs.
Qed.

Lemma rewind_input_readable w l d v body w1 :
  heap w !! l = Some (ODict d) → d !! "wsgi.input" = Some v →
  call_read v w = (Ok (VBytes body), w1) →
  let s' := fresh (dom (heap w1)) in
  rewind_input (VRef l) w
  = (Ok tt, World (<[l := ODict (<["wsgi.input" := VRef s']> d)]>
                     (<[s' := OBytesIO body 0]> (heap w1))) (trace w))
  ∧ heap w1 !! l = Some (ODict d) ∧ heap w1 !! s' = None ∧ l ≠ s'
  ∧ trace w1 = trace w.
Proof.
  intros Hl Hd Hr s'. 
  assert (Hw1 : heap w1 !! l = Some (ODict d) ∧ trace w1 = trace w
                ∧ hasattr_read v w = (Ok true, w)).
  { unfold call_read, hasattr_read, bind, deref in *.
    destruct v as [| | | | | |s]; try done.
    destruct (heap w !! s) as [[]|] eqn:Hs; try done; simpl in *;
      injection Hr as <- <-; simpl; (split; [|done]);
      rewrite lookup_insert_ne; [done|congruence|done|congruence]. }
  destruct Hw1 as (Hl1 & Ht & Hh).
  split; [|repeat split; [done|apply fresh_lookup|by eapply fresh_ne|done]].
  unfold rewind_input.
  run (dict_contains_run w l d _ Hl). rewrite Hd.
  unfold when at 1.
  run (dict_getitem_run w l d _ _ Hl Hd).
  run Hh. unfold when.
  run Hr.
  unfold new_BytesIO, alloc, bind. fold s'.
  rewrite (dict_setitem_run _ l d); simpl.
  - by rewrite Ht.
  - rewrite lookup_insert_ne; [done|]. intros <-. 
    pose proof (fresh_lookup (heap w1)) as Hf. fold s' in Hf. congruence.
Qed.

Lemma reaches_via limit l w w1 w2 :
  rewind_input (VRef l) w = (Ok tt, w1) →
  coerce_content_length limit (VRef l) w1 = (Ok tt, w2) →
  reaches_application limit (VRef l) w w2.
Proof.
  intros H1 H2 app sr. rewrite wsgi_input_middleware_statements.
  run H1. by run H2.
Qed.

Lemma aborts_via limit l w e w1 :
  rewind_input (VRef l) w = (Raise e, w1) →
  aborts limit (VRef l) w e w1.
Proof.
  intros H1 app sr. rewrite wsgi_input_middleware_statements.
  by rewrite (bind_raise _ _ _ _ _ H1).
Qed.

Lemma rewind_input_cases w l d :
  heap w !! l = Some (ODict d) →
  (∃ e, input_fault w d = Some e ∧ rewind_input (VRef l) w = (Raise e, w))
  ∨ (input_fault w d = None
     ∧ ∃ w1 d1, rewind_input (VRef l) w = (Ok tt, w1)
         ∧ heap w1 !! l = Some (ODict d1)
         ∧ (∀ key, key ≠ "wsgi.input" → d1 !! key = d !! key)
         ∧ (unreadable w d → w1 = w ∧ d1 = d)).
Proof.
  intros Hl.
  set (done_in := λ (w1 : world) (d1 : gmap string value),
         rewind_input (VRef l) w = (Ok tt, w1)
         ∧ heap w1 !! l = Some (ODict d1)
         ∧ (∀ key, key ≠ "wsgi.input" → d1 !! key = d !! key)
         ∧ (unreadable w d → w1 = w ∧ d1 = d)).
  change ((∃ e, input_fault w d = Some e ∧ rewind_input (VRef l) w = (Raise e, w))
          ∨ (input_fault w d = None ∧ ∃ w1 d1, done_in w1 d1)).
  unfold input_fault.
  destruct (d !! "wsgi.input") as [v|] eqn:Hd.
  2:{ right. split; [done|]. exists w, d. unfold done_in.
      by rewrite (rewind_input_absent w l d). }
  assert (Hskip : hasattr_read v w = (Ok false, w) → ∃ w1 d1, done_in w1 d1).
  { intros Hr. exists w, d. unfold done_in.
    by rewrite (rewind_input_unreadable w l d v). }
  assert (Hread : ∀ body w1, call_read v w = (Ok (VBytes body), w1) →
            ∃ w1 d1, done_in w1 d1).
  { intros body w1 Hr.
    destruct (rewind_input_readable w l d v body w1 Hl Hd Hr)
      as (Hrun & Hl1 & Hs' & Hne & Ht).
    eexists _, _. split; [exact Hrun|]. simpl.
    split; [by rewrite lookup_insert_eq|].
    split; [intros key Hk; by rewrite lookup_insert_ne|].
    unfold unreadable. rewrite Hd.
    intros [|(v0 & [= <-] & Hh)]; [done|]. exfalso.
    unfold call_read, hasattr_read, bind, deref in *.
    destruct v as [| | | | | |s]; try done.
    by destruct (heap w !! s) as [[]|]. }
  destruct v as [| | | | | |s];
    try (right; split; [done|]; apply Hskip; reflexivity).
  destruct (heap w !! s) as [[]|] eqn:Hs;
    try (right; split; [done|]; apply Hskip;
         unfold hasattr_read, bind, deref; by rewrite Hs).
  - right; split; [done|]. eapply Hread. unfold call_read, bind, deref.
    by rewrite Hs.
  - right; split; [done|]. eapply Hread. unfold call_read, bind, deref.
    by rewrite Hs.
  - left. eexists. split; [done|]. by eapply rewind_input_faulty.
Qed.




(** C4.  When the environment holds an input stream whose [read()] would
    hand out [body], the application is reached with [wsgi.input] bound to
    a fresh in-memory buffer that holds exactly [body] and is positioned at
    its start; reading it yields [body], and after a [seek(0)] it yields
    [body] again. *)
Theorem input_rewound limit w l d v body w_read :
  heap w !! l = Some (ODict d) →
  d !! "wsgi.input" = Some v →
  call_read v w = (Ok (VBytes body), w_read) →
  ∃ w' s',
    reaches_application limit (VRef l) w w'
    ∧ stored w' l "wsgi.input" = Some (VRef s')
    ∧ heap w !! s' = None
    ∧ heap w' !! s' = Some (OBytesIO body 0)
    ∧ ∃ w1 w2,
        call_read (VRef s') w' = (Ok (VBytes body), w1)
        ∧ (call_seek (VRef s') 0;; call_read (VRef s'))%py w1
          = (Ok (VBytes body), w2).
Proof.
  intros Hl Hd Hr.
  destruct (rewind_input_readable w l d v body w_read Hl Hd Hr)
    as (Hrun & Hl1 & Hs' & Hne & Ht).
  set (s' := fresh (dom (heap w_read))) in *.
  set (w1 := World _ _) in Hrun.
  assert (Hw1l : heap w1 !! l = Some (ODict (<["wsgi.input" := VRef s']> d)))
    by apply lookup_insert_eq.
  pose proof (coerce_content_length_run limit w1 l _ Hw1l) as Hc.
  eexists _, s'. split; [exact (reaches_via _ _ _ _ _ Hrun Hc)|].
  assert (Hfresh : heap w !! s' = None).
  { unfold call_read, bind, deref in Hr. destruct v as [| | | | | |s]; try done.
    destruct (heap w !! s) as [[]|] eqn:Hs; try done; simpl in Hr;
      injection Hr as <- <-; simpl in *;
      apply lookup_insert_None in Hs'; tauto. }
  assert (Hbuf : ∀ w2 : world,
            heap w2 = heap w1 ∨ (∃ x, heap w2 = <[l := x]> (heap w1)) →
            heap w2 !! s' = Some (OBytesIO body 0)).
  { intros w2 [->|[x ->]]; [|rewrite lookup_insert_ne by done]; 
      subst w1; simpl; rewrite lookup_insert_ne by done;
      apply lookup_insert_eq. }
  match type of Hc with _ = (_, ?w2) => set (w' := w2) in * end.
  assert (Hw' : heap w' = heap w1 ∨ ∃ x, heap w' = <[l := x]> (heap w1)).
  { subst w'. destruct (_ !! "CONTENT_LENGTH"); [right; by eexists|by left]. }
  assert (Hs'w : heap w' !! s' = Some (OBytesIO body 0)) by by apply Hbuf.
  split.
  { unfold stored. subst w'. destruct (_ !! "CONTENT_LENGTH") eqn:Hcl.
    - simpl. rewrite lookup_insert_eq. rewrite lookup_insert_ne by done.
      apply lookup_insert_eq.
    - rewrite Hw1l. apply lookup_insert_eq. }
  split; [done|]. split; [done|].
  eexists _, _. split.
  - unfold call_read, bind, deref. rewrite Hs'w. simpl.
    by rewrite drop_0.
  - unfold call_seek, call_read, bind, deref, store. simpl.
    rewrite lookup_insert_eq. simpl. rewrite lookup_insert_eq. simpl.
    by rewrite drop_0.
Qed.

Lemma input_rewound_witness :
  ∃ w' s',
    reaches_application 4300 (VRef environ_loc) posted_request w'
    ∧ stored w' environ_loc "wsgi.input" = Some (VRef s')
    ∧ heap posted_request !! s' = None
    ∧ heap w' !! s' = Some (OBytesIO (b "hello") 0)
    ∧ ∃ w1 w2,
        call_read (VRef s') w' = (Ok (VBytes (b "hello")), w1)
        ∧ (call_seek (VRef s') 0;; call_read (VRef s'))%py w1
          = (Ok (VBytes (b "hello")), w2).
Proof.
  apply (input_rewound 4300 posted_request environ_loc posted_entries
           (VRef stream_loc) (b "hello")
           (call_read (VRef stream_loc) posted_request).2);
    reflexivity.
Defined.

(** C9.  Whether the wrapper reaches the application or stops with the
    input stream's error, every entry of the environment other than
    [wsgi.input] and [CONTENT_LENGTH] is what it was; and when
    [wsgi.input] is absent or its value has no [read] attribute, the
    application is reached (no error) with that entry as it was. *)
Theorem environ_frame limit w l d :
  heap w !! l = Some (ODict d) →
  ∃ w',
    (reaches_application limit (VRef l) w w'
     ∨ ∃ e, aborts limit (VRef l) w e w')
    ∧ (∀ key, key ≠ "wsgi.input" → key ≠ "CONTENT_LENGTH" →
              stored w' l key = d !! key)
    ∧ (unreadable w d →
       reaches_application limit (VRef l) w w'
       ∧ stored w' l "wsgi.input" = d !! "wsgi.input").
Proof.
  intros Hl.
  destruct (rewind_input_cases w l d Hl)
    as [(e & He & Hrun)|(_ & w1 & d1 & Hrun & Hl1 & Hframe & Hskip)].
  - exists w. split; [right; exists e; by apply aborts_via|].
    unfold stored. rewrite Hl. split; [done|].
    intros Hu. exfalso. unfold input_fault, unreadable in *.
    destruct Hu as [Hd|(v & Hd & Hh)]; rewrite Hd in He; [done|].
    destruct v as [| | | | | |s]; try done.
    unfold hasattr_read, bind, deref in Hh.
    by destruct (heap w !! s) as [[]|].
  - pose proof (coerce_content_length_run limit w1 l d1 Hl1) as Hc.
    eexists. split; [left; exact (reaches_via _ _ _ _ _ Hrun Hc)|].
    assert (Hst : ∀ key, key ≠ "CONTENT_LENGTH" →
              stored match d1 !! "CONTENT_LENGTH" with
                     | Some v => set_entry w1 l d1 "CONTENT_LENGTH"
                                   (VInt (coerced limit v))
                     | None => w1
                     end l key = d1 !! key).
    { intros key Hk. unfold stored, set_entry.
      destruct (d1 !! "CONTENT_LENGTH"); simpl.
      - rewrite lookup_insert_eq. by rewrite lookup_insert_ne.
      - by rewrite Hl1. }
    split.
    + intros key Hk1 Hk2. rewrite Hst by done. by apply Hframe.
    + intros Hu. split; [exact (reaches_via _ _ _ _ _ Hrun Hc)|].
      rewrite Hst by done. by destruct (Hskip Hu) as [_ ->].
Qed.

Lemma environ_frame_witness :
  ∃ w',
    (reaches_application 4300 (VRef environ_loc) posted_request w'
     ∨ ∃ e, aborts 4300 (VRef environ_loc) posted_request e w')
    ∧ (∀ key, key ≠ "wsgi.input" → key ≠ "CONTENT_LENGTH" →
              stored w' environ_loc key = posted_entries !! key)
    ∧ (unreadable posted_request posted_entries →
       reaches_application 4300 (VRef environ_loc) posted_request w'
       ∧ stored w' environ_loc "wsgi.input" = posted_entries !! "wsgi.input").
Proof.
  apply (environ_frame 4300 posted_request environ_loc posted_entries).
  reflexivity.
Defined.

(** * The CORS wrapper *)

Lemma eq_str_true v s : eq_str v s = true ↔ v = VStr s.
Proof.
  destruct v; simpl; try (split; [discriminate|congruence]).
  rewrite String.eqb_eq. split; congruence.
Qed.

Lemma eq_str_method (d : gmap string value) :
  d !! "REQUEST_METHOD" ≠ Some (VStr "OPTIONS") →
  eq_str (default VNone (d !! "REQUEST_METHOD")) "OPTIONS" = false.
Proof.
  intros Hm. apply not_true_is_false. rewrite eq_str_true.
  destruct (d !! "REQUEST_METHOD"); simpl; congruence.
Qed.

Lemma truthy_str s w : s ≠ "" → truthy (VStr s) w = (Ok true, w).
Proof.
  intros Hs. unfold truthy, ret. destruct (String.eqb_spec s ""); done.
Qed.

Lemma cors_middleware_preflight app sr w l d :
  heap w !! l = Some (ODict d) →
  d !! "REQUEST_METHOD" = Some (VStr "OPTIONS") →
  cors_middleware app (VRef l) sr w
  = (let* response_headers := alloc (OList []) in
     let* has_origin := truthy (default VNone (d !! "HTTP_ORIGIN")) in
     if has_origin then
       cors_response (default VNone (d !! "HTTP_ORIGIN")) sr (VStr "200 OK")
         response_headers;;
       ret (iter_of_list [VBytes (b "")])
     else ret (iter_of_list [VBytes (b "")]))%py w.
Proof.
  intros Hl Hm. unfold cors_middleware.
  run (dict_get_run w l d _ Hl).
  run (dict_get_run w l d _ Hl).
  by rewrite Hm.
Qed.

Lemma cors_middleware_forward app sr w l d :
  heap w !! l = Some (ODict d) →
  d !! "REQUEST_METHOD" ≠ Some (VStr "OPTIONS") →
  cors_middleware app (VRef l) sr w
  = app (VRef l) (cors_response (default VNone (d !! "HTTP_ORIGIN")) sr) w.
Proof.
  intros Hl Hm. unfold cors_middleware.
  run (dict_get_run w l d _ Hl).
  run (dict_get_run w l d _ Hl).
  by rewrite eq_str_method.
Qed.

Lemma cors_response_extends origin sr status hl hs w :
  origin ≠ "" →
  heap w !! hl = Some (OList hs) →
  cors_response (VStr origin) sr status (VRef hl) w
  = sr status (VRef hl)
      (World (<[hl := OList (hs ++ cors_headers (VStr origin))]> (heap w))
             (trace w)).
Proof.
  intros Ho Hh. unfold cors_response.
  run (truthy_str origin w Ho). unfold when.
  by run (list_extend_run w hl hs _ Hh).
Qed.

Lemma preflight_with_origin_run app sr w l d origin :
  heap w !! l = Some (ODict d) →
  d !! "REQUEST_METHOD" = Some (VStr "OPTIONS") →
  d !! "HTTP_ORIGIN" = Some (VStr origin) →
  origin ≠ "" →
  cors_middleware app (VRef l) sr w
  = (sr (VStr "200 OK") (VRef (fresh (dom (heap w))));;
     ret (iter_of_list [VBytes (b "")]))%py
      (World (<[fresh (dom (heap w)) := OList (cors_headers (VStr origin))]>
                (heap w)) (trace w)).
Proof.
  intros Hl Hm Ho Hne. rewrite (cors_middleware_preflight app sr w l d Hl Hm).
  rewrite Ho. simpl default. unfold alloc. unfold bind at 1.
  run (truthy_str origin _ Hne).
  unfold bind at 1. rewrite (cors_response_extends origin sr _ _ []); [|done|].
  - simpl. rewrite insert_insert_eq. reflexivity.
  - simpl. apply lookup_insert_eq.
Qed.

(** C7.  For a request that is not [OPTIONS] and has no [Origin] header
    the application runs with the server's [start_response] itself as its
    callback: status and header list arrive as the application passed
    them, with nothing added, changed or removed. *)
Theorem no_origin_forwards_unmodified app sr w l d :
  heap w !! l = Some (ODict d) →
  d !! "REQUEST_METHOD" ≠ Some (VStr "OPTIONS") →
  d !! "HTTP_ORIGIN" = None →
  cors_middleware app (VRef l) sr w = app (VRef l) sr w.
Proof.
  intros Hl Hm Ho. rewrite (cors_middleware_forward app sr w l d Hl Hm).
  rewrite Ho. reflexivity.
Qed.

Lemma no_origin_forwards_unmodified_witness :
  cors_middleware hello_app (VRef environ_loc) server_start_response
    (request (get_entries None))
  = hello_app (VRef environ_loc) server_start_response
      (request (get_entries None)).
Proof.
  apply (no_origin_forwards_unmodified hello_app server_start_response
           (request (get_entries None)) environ_loc (get_entries None));
    [reflexivity|by vm_compute|reflexivity].
Defined.

(** C6.  For an [OPTIONS] request without an [Origin] header the wrapper
    returns the one-chunk body [[b'']], which is empty, and nothing else
    happens but the allocation of the unused header list: neither the
    callback nor the application takes part in the outcome and no event
    reaches the server. *)
Theorem preflight_without_origin app sr w l d :
  heap w !! l = Some (ODict d) →
  d !! "REQUEST_METHOD" = Some (VStr "OPTIONS") →
  d !! "HTTP_ORIGIN" = None →
  cors_middleware app (VRef l) sr w
  = (Ok (iter_of_list [VBytes (b "")]),
     World (<[fresh (dom (heap w)) := OList []]> (heap w)) (trace w))
  ∧ body_bytes [VBytes (b "")] = []
  ∧ ∀ (app' : wsgi_app) (sr' : start_response_t),
      cors_middleware app' (VRef l) sr' w = cors_middleware app (VRef l) sr w.
Proof.
  intros Hl Hm Ho. rewrite !(cors_middleware_preflight _ _ w l d Hl Hm).
  rewrite Ho. split; [reflexivity|]. split; [reflexivity|].
  intros app' sr'. rewrite !(cors_middleware_preflight _ _ w l d Hl Hm).
  by rewrite Ho.
Qed.

Lemma preflight_without_origin_witness :
  cors_middleware hello_app (VRef environ_loc) server_start_response
    (request (options_entries None))
  = (Ok (iter_of_list [VBytes (b "")]),
     World (<[fresh (dom (heap (request (options_entries None)))) := OList []]>
              (heap (request (options_entries None)))) []).
Proof.
  apply (preflight_without_origin hello_app server_start_response
           (request (options_entries None)) environ_loc (options_entries None));
    reflexivity.
Defined.

(** C2 (as amended).  For an [OPTIONS] request whose [Origin] header is not
    empty, the wrapper calls [start_response] with the status ['200 OK'];
    when that call returns, the wrapper returns the one-chunk body
    [[b'']], which is empty.  The outcome is the same whatever the wrapped
    application is: it is not called. *)
Theorem preflight_short_circuit app sr w l d origin :
  heap w !! l = Some (ODict d) →
  d !! "REQUEST_METHOD" = Some (VStr "OPTIONS") →
  d !! "HTTP_ORIGIN" = Some (VStr origin) →
  origin ≠ "" →
  (∃ headers w1,
      cors_middleware app (VRef l) sr w
      = match sr (VStr "200 OK") headers w1 with
        | (Ok _, w2) => (Ok (iter_of_list [VBytes (b "")]), w2)
        | (Raise e, w2) => (Raise e, w2)
        end)
  ∧ (∃ headers,
      (cors_middleware app (VRef l) server_start_response w).1
      = Ok (iter_of_list [VBytes (b "")])
      ∧ trace (cors_middleware app (VRef l) server_start_response w).2
        = (trace w ++ [ResponseStarted (VStr "200 OK") headers])%list)
  ∧ body_bytes [VBytes (b "")] = []
  ∧ ∀ app' : wsgi_app,
      cors_middleware app' (VRef l) sr w = cors_middleware app (VRef l) sr w.
Proof.
  intros Hl Hm Ho Hne. split; [|split; [|split; [done|]]].
  - eexists _, _.
    rewrite (preflight_with_origin_run app sr w l d origin) by done.
    unfold bind. reflexivity.
  - eexists.
    rewrite (preflight_with_origin_run app _ w l d origin) by done.
    erewrite bind_ok; [|apply server_start_response_run, lookup_insert_eq].
    split; reflexivity.
  - intros app'.
    by rewrite !(preflight_with_origin_run _ sr w l d origin).
Qed.

Lemma preflight_short_circuit_witness :
  cors_middleware hello_app (VRef environ_loc) server_start_response
    (request (options_entries (Some "https://example.com")))
  = cors_middleware failing_app (VRef environ_loc) server_start_response
      (request (options_entries (Some "https://example.com"))).
Proof.
  apply (preflight_short_circuit failing_app server_start_response
           (request (options_entries (Some "https://example.com")))
           environ_loc (options_entries (Some "https://example.com"))
           "https://example.com");
    [reflexivity|reflexivity|reflexivity|by vm_compute].
Defined.

(** An [OPTIONS] request whose [Origin] header is empty: the wrapper
    returns the empty body and the server is handed no status at all. *)
Lemma preflight_empty_origin_no_status :
  cors_middleware hello_app (VRef environ_loc) server_start_response
    (request (options_entries (Some "")))
  = (Ok (iter_of_list [VBytes (b "")]),
     World (<[2%positive := OList []]>
              (heap (request (options_entries (Some ""))))) []).
Proof. reflexivity. Qed.

(** C10 (as amended).  For an [OPTIONS] request whose [Origin] header is
    not empty, the wrapper's outcome is that of one call of
    [start_response] with the status ['200 OK'] and a list that was
    created for this call and holds the six CORS pairs and nothing else.
    With the server's callback, exactly one response start is recorded. *)
Theorem preflight_headers app sr w l d origin :
  heap w !! l = Some (ODict d) →
  d !! "REQUEST_METHOD" = Some (VStr "OPTIONS") →
  d !! "HTTP_ORIGIN" = Some (VStr origin) →
  origin ≠ "" →
  ∃ h w1,
    heap w !! h = None
    ∧ heap w1 = <[h := OList (cors_headers (VStr origin))]> (heap w)
    ∧ trace w1 = trace w
    ∧ length (cors_headers (VStr origin)) = 6%nat
    ∧ cors_middleware app (VRef l) sr w
      = (sr (VStr "200 OK") (VRef h);; ret (iter_of_list [VBytes (b "")]))%py w1
    ∧ trace (cors_middleware app (VRef l) server_start_response w).2
      = (trace w ++ [ResponseStarted (VStr "200 OK") (cors_headers (VStr origin))])%list.
Proof.
  intros Hl Hm Ho Hne.
  exists (fresh (dom (heap w))),
    (World (<[fresh (dom (heap w)) := OList (cors_headers (VStr origin))]>
              (heap w)) (trace w)).
  split; [apply fresh_lookup|]. split; [reflexivity|]. split; [reflexivity|].
  split; [reflexivity|].
  split; [by apply (preflight_with_origin_run app sr w l d origin)|].
  rewrite (preflight_with_origin_run app _ w l d origin) by done.
  erewrite bind_ok; [|apply server_start_response_run, lookup_insert_eq].
  reflexivity.
Qed.

Lemma preflight_headers_witness :
  ∃ h w1,
    heap (request (options_entries (Some "https://example.com"))) !! h = None
    ∧ heap w1 = <[h := OList (cors_headers (VStr "https://example.com"))]>
                  (heap (request (options_entries (Some "https://example.com"))))
    ∧ trace w1 = []
    ∧ length (cors_headers (VStr "https://example.com")) = 6%nat
    ∧ cors_middleware hello_app (VRef environ_loc) server_start_response
        (request (options_entries (Some "https://example.com")))
      = (server_start_response (VStr "200 OK") (VRef h);;
         ret (iter_of_list [VBytes (b "")]))%py w1
    ∧ trace (cors_middleware hello_app (VRef environ_loc) server_start_response
               (request (options_entries (Some "https://example.com")))).2
      = [ResponseStarted (VStr "200 OK")
           (cors_headers (VStr "https://example.com"))].
Proof.
  apply (preflight_headers hello_app server_start_response
           (request (options_entries (Some "https://example.com")))
           environ_loc (options_entries (Some "https://example.com"))
           "https://example.com");
    [reflexivity|reflexivity|reflexivity|by vm_compute].
Defined.

(** C3 (as amended).  For a request that is not [OPTIONS] and whose
    [Origin] header is not empty, the application runs with a callback
    that, given a status and a header list, appends to that list the six
    CORS pairs, in this order and with the origin as received, and then
    calls [start_response] with the same status and the same list. *)
Theorem origin_adds_cors_headers app sr w l d origin :
  heap w !! l = Some (ODict d) →
  d !! "REQUEST_METHOD" ≠ Some (VStr "OPTIONS") →
  d !! "HTTP_ORIGIN" = Some (VStr origin) →
  origin ≠ "" →
  ∃ callback : start_response_t,
    cors_middleware app (VRef l) sr w = app (VRef l) callback w
    ∧ ∀ status hl hs w0,
        heap w0 !! hl = Some (OList hs) →
        callback status (VRef hl) w0
        = sr status (VRef hl)
            (World
               (<[hl := OList
                    (hs ++
                     [ VTuple2 (VStr "Access-Control-Allow-Origin") (VStr origin);
                       VTuple2 (VStr "Access-Control-Allow-Credentials") (VStr "true");
                       VTuple2 (VStr "Access-Control-Allow-Methods")
                               (VStr "POST, GET, OPTIONS");
                       VTuple2 (VStr "Access-Control-Allow-Headers")
                               (VStr "Content-Type, Authorization, authorization-bearer");
                       VTuple2 (VStr "Access-Control-Max-Age") (VStr "3600");
                       VTuple2 (VStr "Access-Control-Expose-Headers")
                               (VStr "Content-Type, Authorization") ])]>
                  (heap w0))
               (trace w0)).
Proof.
  intros Hl Hm Ho Hne. exists (cors_response (VStr origin) sr). split.
  - rewrite (cors_middleware_forward app sr w l d Hl Hm). by rewrite Ho.
  - intros status hl hs w0 Hh. by apply cors_response_extends.
Qed.

(** An [OPTIONS] request whose [Origin] header is empty, served with a
    callback that fails whenever it is called: the wrapper returns
    normally, so the callback was called not once but never. *)
Lemma preflight_empty_origin_no_call :
  (cors_middleware hello_app (VRef environ_loc) refusing_start_response
     (request (options_entries (Some "")))).1
  = Ok (iter_of_list [VBytes (b "")])
  ∧ (refusing_start_response (VStr "200 OK") VNone (World ∅ [])).1
    = Raise (Exn ["AssertionError"; "Exception"; "BaseException"; "object"]
                 "start_response was called").
Proof. split; reflexivity. Qed.

Lemma origin_adds_cors_headers_witness :
  ∃ callback : start_response_t,
    cors_middleware hello_app (VRef environ_loc) server_start_response
      (request (get_entries (Some "https://example.com")))
    = hello_app (VRef environ_loc) callback
        (request (get_entries (Some "https://example.com")))
    ∧ trace (cors_middleware hello_app (VRef environ_loc) server_start_response
               (request (get_entries (Some "https://example.com")))).2
      = [ HandlerEntered (get_entries (Some "https://example.com"));
          ResponseStarted (VStr "200 OK")
            (VTuple2 (VStr "Content-Type") (VStr "text/plain")
             :: cors_headers (VStr "https://example.com")) ].
Proof.
  destruct (origin_adds_cors_headers hello_app server_start_response
              (request (get_entries (Some "https://example.com")))
              environ_loc (get_entries (Some "https://example.com"))
              "https://example.com")
    as (callback & Hrun & _);
    [reflexivity|by vm_compute|reflexivity|by vm_compute|].
  exists callback. split; [exact Hrun|]. reflexivity.
Defined.

(** A [GET] request whose [Origin] header is empty: the server receives
    the header list of the application as it was, without any of the six
    CORS pairs. *)
Lemma empty_origin_adds_nothing :
  trace (cors_middleware hello_app (VRef environ_loc) server_start_response
           (request (get_entries (Some "")))).2
  = [ HandlerEntered (get_entries (Some ""));
      ResponseStarted (VStr "200 OK")
        [VTuple2 (VStr "Content-Type") (VStr "text/plain")] ].
Proof. reflexivity. Qed.

(** * Warmup *)

Lemma build_warmup_environ_run w :
  ∃ errors server_name input environ w1,
    build_warmup_environ w = (Ok (VRef environ), w1)
    ∧ heap w1 !! environ
      = Some (ODict (warmup_environ (VRef errors) (VRef server_name) (VRef input)))
    ∧ heap w1 !! input = Some (OBytesIO (b "{}") 0)
    ∧ heap w1 !! errors = Some (OBytesIO (b "") 0)
    ∧ heap w1 !! server_name = Some (OSimpleLazy "get_allowed_host_lazy")
    ∧ heap w !! environ = None ∧ heap w !! input = None
    ∧ trace w1 = trace w.
Proof.
  set (l1 := fresh (dom (heap w))).
  set (h1 := <[l1 := OBytesIO (b "") 0]> (heap w)).
  set (l2 := fresh (dom h1)).
  set (h2 := <[l2 := OSimpleLazy "get_allowed_host_lazy"]> h1).
  set (l3 := fresh (dom h2)).
  set (h3 := <[l3 := OBytesIO (b "{}") 0]> h2).
  set (l4 := fresh (dom h3)).
  exists l1, l2, l3, l4.
  exists (World (<[l4 := ODict (warmup_environ (VRef l1) (VRef l2) (VRef l3))]> h3)
                (trace w)).
  pose proof (fresh_lookup (heap w)) as H1. fold l1 in H1.
  pose proof (fresh_lookup h1) as H2. fold l2 in H2.
  pose proof (fresh_lookup h2) as H3. fold l3 in H3.
  pose proof (fresh_lookup h3) as H4. fold l4 in H4.
  subst h3. apply lookup_insert_None in H4 as [H4 H43].
  subst h2. apply lookup_insert_None in H4 as [H4 H42].
  apply lookup_insert_None in H3 as [H3 H32].
  subst h1. apply lookup_insert_None in H4 as [H4 H41].
  apply lookup_insert_None in H3 as [H3 H31].
  apply lookup_insert_None in H2 as [H2 H21].
  cbn [heap trace].
  split; [reflexivity|].
  split; [apply lookup_insert_eq|].
  split; [rewrite lookup_insert_ne by done; apply lookup_insert_eq|].
  split; [rewrite !lookup_insert_ne by done; apply lookup_insert_eq|].
  split; [rewrite lookup_insert_ne, lookup_insert_ne by done;
          apply lookup_insert_eq|].
  done.
Qed.

Lemma warmup_application_run app w environ w1 :
  build_warmup_environ w = (Ok environ, w1) →
  warmup_application app w
  = match call_and_consume app environ warmup_start_response w1 with
    | (Ok _, w2) => (Ok tt, w2)
    | (Raise e, w2) =>
        if isinstance e "Exception"
        then (Ok tt, World (heap w2) (trace w2 ++ [warmup_warning e]))
        else (Raise e, w2)
    end.
Proof.
  intros Hb. unfold warmup_application. run Hb.
  unfold try_except, bind.
  destruct (call_and_consume app environ warmup_start_response w1)
    as [[chunks|e] w2]; [done|].
  simpl. by destruct (isinstance e "Exception").
Qed.

Lemma module_init_ok limit django hc w w' :
  warmup_application (application limit django hc) w = (Ok tt, w') →
  module_init limit django hc w = (Ok tt, w').
Proof. intros H. unfold module_init, try_except. by rewrite H. Qed.

(** C8.  Warmup builds a request of its own, with method [POST], path
    [/graphql/], content type [application/json], the content-length
    string ['2'] and an input buffer holding the two bytes of [{}] at
    position 0; its outcome is that of one call of the handler on this
    request, followed by the consumption of the result, whose chunks are
    dropped.  A handler that notes each request it is entered with has
    noted exactly this one afterwards.  At module level warmup is run on
    the fully wrapped handler [application]. *)
Theorem warmup_single_fabricated_request app w :
  ∃ environ input w1,
    build_warmup_environ w = (Ok (VRef environ), w1)
    ∧ heap w !! environ = None
    ∧ stored w1 environ "REQUEST_METHOD" = Some (VStr "POST")
    ∧ stored w1 environ "PATH_INFO" = Some (VStr "/graphql/")
    ∧ stored w1 environ "CONTENT_TYPE" = Some (VStr "application/json")
    ∧ stored w1 environ "CONTENT_LENGTH" = Some (VStr "2")
    ∧ stored w1 environ "wsgi.input" = Some (VRef input)
    ∧ heap w1 !! input = Some (OBytesIO [x7b; x7d] 0)
    ∧ warmup_application app w
      = match app (VRef environ) warmup_start_response w1 with
        | (Ok result, w2) =>
            match result w2 with
            | (Ok _, w3) => (Ok tt, w3)
            | (Raise e, w3) =>
                if isinstance e "Exception"
                then (Ok tt, World (heap w3) (trace w3 ++ [warmup_warning e]))
                else (Raise e, w3)
            end
        | (Raise e, w2) =>
            if isinstance e "Exception"
            then (Ok tt, World (heap w2) (trace w2 ++ [warmup_warning e]))
            else (Raise e, w2)
        end
    ∧ (∃ request,
        heap w1 !! environ = Some (ODict request)
        ∧ trace (warmup_application hello_app w).2
          = (trace w ++ [HandlerEntered request])%list)
    ∧ ∀ limit django hc,
        module_init limit django hc w
        = try_except (warmup_application (application limit django hc))
            ["Exception"]
            (λ e, logger_warning "saleor.wsgi"
                    ("Application warmup failed: " ++ exn_str e) false) w.
Proof.
  destruct (build_warmup_environ_run w)
    as (errors & server_name & input & environ & w1 & Hb & He & Hi & _ & _
        & Hfe & _ & Ht).
  exists environ, input, w1. split; [done|]. split; [done|].
  unfold stored. rewrite He.
  do 5 (split; [reflexivity|]). split; [exact Hi|]. split.
  - rewrite (warmup_application_run app w _ w1 Hb).
    unfold call_and_consume, py_list, bind.
    destruct (app (VRef environ) warmup_start_response w1) as [[result|e] w2];
      [|done].
    by destruct (result w2) as [[chunks|e] w3].
  - split; [|reflexivity]. eexists. split; [reflexivity|].
    rewrite (warmup_application_run hello_app w _ w1 Hb).
    unfold call_and_consume, hello_app, py_list, bind, deref, alloc,
      warmup_start_response, ret, iter_of_list.
    rewrite He. simpl. by rewrite Ht.
Qed.

(** C5 (as amended).  When calling the handler and consuming its result
    ends normally, warmup returns normally.  When it ends with an
    exception that is an instance of [Exception], warmup returns normally
    as well, having logged one warning that carries the text of the
    exception.  In both cases the module-level call returns normally too,
    so the process start goes on.  An exception that is no instance of
    [Exception] leaves warmup as it came. *)
Theorem warmup_contains_handler_errors app w environ w1 :
  build_warmup_environ w = (Ok environ, w1) →
  (∀ chunks w2,
      call_and_consume app environ warmup_start_response w1 = (Ok chunks, w2) →
      warmup_application app w = (Ok tt, w2))
  ∧ (∀ e w2,
      call_and_consume app environ warmup_start_response w1 = (Raise e, w2) →
      isinstance e "Exception" = true →
      warmup_application app w
      = (Ok tt, World (heap w2) (trace w2 ++ [warmup_warning e])))
  ∧ (∀ e w2,
      call_and_consume app environ warmup_start_response w1 = (Raise e, w2) →
      isinstance e "Exception" = false →
      warmup_application app w = (Raise e, w2))
  ∧ (∀ limit django hc w',
      app = application limit django hc →
      warmup_application app w = (Ok tt, w') →
      module_init limit django hc w = (Ok tt, w')).
Proof.
  intros Hb. split; [|split; [|split]].
  - intros chunks w2 Hc. rewrite (warmup_application_run app w _ w1 Hb).
    by rewrite Hc.
  - intros e w2 Hc He. rewrite (warmup_application_run app w _ w1 Hb).
    by rewrite Hc, He.
  - intros e w2 Hc He. rewrite (warmup_application_run app w _ w1 Hb).
    by rewrite Hc, He.
  - intros limit django hc w' ->. apply module_init_ok.
Qed.

Lemma warmup_contains_handler_errors_witness :
  warmup_application failing_body_app (World ∅ [])
  = (Ok tt,
     World (heap (build_warmup_environ (World ∅ [])).2)
           [warmup_warning (ValueError "broken body")]).
Proof.
  destruct (warmup_contains_handler_errors failing_body_app (World ∅ [])
              (VRef 4%positive) (build_warmup_environ (World ∅ [])).2)
    as (_ & Hfail & _ & _); [reflexivity|].
  apply (Hfail (ValueError "broken body")); reflexivity.
Defined.

(** A handler interrupted from the keyboard: neither [warmup_application]
    nor the module-level call contains the exception. *)
Lemma warmup_interrupt_propagates :
  (warmup_application interrupted_app (World ∅ [])).1 = Raise KeyboardInterrupt
  ∧ (module_init 4300 interrupted_app (λ app _, app) (World ∅ [])).1
    = Raise KeyboardInterrupt.
Proof. split; reflexivity. Qed.

(** * Further properties of the wrappers *)

Lemma truthy_pure v w : ∃ t, truthy v w = (Ok t, w).
Proof.
  destruct v as [| | | | | |s]; simpl; try by eexists.
  unfold bind, deref. destruct (heap w !! s) as [[]|]; by eexists.
Qed.

Lemma unreadable_no_read w d v body w1 :
  unreadable w d → d !! "wsgi.input" = Some v →
  call_read v w = (Ok (VBytes body), w1) → False.
Proof.
  intros [Hd|(v0 & Hd & Hh)] Hv Hr; rewrite Hd in Hv; [done|].
  injection Hv as ->.
  unfold call_read, hasattr_read, bind, deref in *.
  destruct v as [| | | | | |s]; try done.
  by destruct (heap w !! s) as [[]|].
Qed.

Lemma unreadable_no_fault w d : unreadable w d → input_fault w d = None.
Proof.
  unfold input_fault. intros [Hd|(v & Hd & Hh)]; rewrite Hd; [done|].
  destruct v as [| | | | | |s]; try done.
  unfold hasattr_read, bind, deref in Hh.
  by destruct (heap w !! s) as [[]|].
Qed.

(** An environment dictionary replaced by another leaves an unreadable
    [wsgi.input] unreadable. *)
Lemma unreadable_after_update w l d d1 w1 :
  heap w !! l = Some (ODict d) →
  unreadable w d →
  d1 !! "wsgi.input" = d !! "wsgi.input" →
  heap w1 = heap w ∨ heap w1 = <[l := ODict d1]> (heap w) →
  unreadable w1 d1.
Proof.
  intros Hl [Hd|(v & Hd & Hh)] Hin Hw1; [left; congruence|].
  right. exists v. split; [congruence|].
  unfold hasattr_read, bind, deref in *.
  destruct v as [| | | | | |s]; try done.
  destruct Hw1 as [->| ->]; [by destruct (heap w !! s) as [[]|]|].
  destruct (decide (l = s)) as [<-|Hne].
  - by rewrite lookup_insert_eq.
  - rewrite lookup_insert_ne by done. by destruct (heap w !! s) as [[]|].
Qed.

Lemma rewind_input_outcome w l d :
  heap w !! l = Some (ODict d) → input_fault w d = None →
  (unreadable w d ∧ rewind_input (VRef l) w = (Ok tt, w))
  ∨ (∃ v body w_read,
        d !! "wsgi.input" = Some v
        ∧ call_read v w = (Ok (VBytes body), w_read)).
Proof.
  intros Hl Hf. unfold input_fault in Hf.
  destruct (d !! "wsgi.input") as [v|] eqn:Hd.
  2:{ left. split; [by left|]. by apply (rewind_input_absent w l d). }
  assert (Hskip : hasattr_read v w = (Ok false, w) →
            unreadable w d ∧ rewind_input (VRef l) w = (Ok tt, w)).
  { intros Hh. split; [right; by exists v|].
    by apply (rewind_input_unreadable w l d v). }
  destruct v as [| | | | | |s]; try (left; apply Hskip; reflexivity).
  destruct (heap w !! s) as [[]|] eqn:Hs; try done;
    try (left; apply Hskip; unfold hasattr_read, bind, deref; by rewrite Hs).
  - right. eexists _, _, _. split; [done|].
    unfold call_read, bind, deref. by rewrite Hs.
  - right. eexists _, _, _. split; [done|].
    unfold call_read, bind, deref. by rewrite Hs.
Qed.

(** What a successful [read()] leaves behind: the stream object, and only
    it, has changed, and reading it again yields nothing. *)
Lemma call_read_exhausts v w body w_read :
  call_read v w = (Ok (VBytes body), w_read) →
  ∃ s o,
    v = VRef s ∧ is_Some (heap w !! s)
    ∧ heap w_read = <[s := o]> (heap w) ∧ trace w_read = trace w
    ∧ ∀ w2, heap w2 !! s = Some o →
            ∃ w3, call_read (VRef s) w2 = (Ok (VBytes []), w3).
Proof.
  unfold call_read, bind, deref. intros Hr.
  destruct v as [| | | | | |s]; try done.
  destruct (heap w !! s) as [[]|] eqn:Hs; try done; simpl in Hr;
    injection Hr as <- <-; eexists s, _;
    (split; [done|]); (split; [done|]); (split; [reflexivity|]);
    (split; [reflexivity|]); intros w2 Hw2; rewrite Hw2; simpl;
    eexists; try reflexivity.
  rewrite drop_ge by lia. reflexivity.
Qed.

(** One pass of the normalisation, in full. *)
Lemma normalise_outcome limit w l d :
  heap w !! l = Some (ODict d) → input_fault w d = None →
  ∃ w1 d1,
    reaches_application limit (VRef l) w w1
    ∧ heap w1 !! l = Some (ODict d1)
    ∧ trace w1 = trace w
    ∧ dom d1 = dom d
    ∧ (∀ key, key ≠ "wsgi.input" → key ≠ "CONTENT_LENGTH" →
              d1 !! key = d !! key)
    ∧ d1 !! "CONTENT_LENGTH"
      = (λ v, VInt (coerced limit v)) <$> d !! "CONTENT_LENGTH"
    ∧ ((unreadable w d ∧ d1 !! "wsgi.input" = d !! "wsgi.input"
        ∧ unreadable w1 d1
        ∧ ∀ l' o, l' ≠ l → heap w !! l' = Some o → heap w1 !! l' = Some o)
       ∨ (∃ v body w_read s',
            d !! "wsgi.input" = Some v
            ∧ call_read v w = (Ok (VBytes body), w_read)
            ∧ d1 !! "wsgi.input" = Some (VRef s')
            ∧ heap w !! s' = None
            ∧ heap w1 !! s' = Some (OBytesIO body 0)
            ∧ ∀ l', l' ≠ l → l' ≠ s' → heap w1 !! l' = heap w_read !! l')).
Proof.
  intros Hl Hf.
  destruct (rewind_input_outcome w l d Hl Hf)
    as [[Hu Hrun]|(v & body & w_read & Hd & Hr)].
  - pose proof (coerce_content_length_run limit w l d Hl) as Hc.
    destruct (d !! "CONTENT_LENGTH") as [c|] eqn:Hcl.
    + eexists _, _. split; [exact (reaches_via _ _ _ _ _ Hrun Hc)|].
      unfold set_entry. cbn [heap trace].
      split; [apply lookup_insert_eq|]. split; [done|].
      split; [apply dom_insert_lookup_L; by rewrite Hcl|].
      split; [intros key _ Hk; by rewrite lookup_insert_ne|].
      split; [by rewrite lookup_insert_eq|].
      left. split; [done|]. split; [by rewrite lookup_insert_ne|].
      split.
      * eapply (unreadable_after_update w l d); [done|done| |right; reflexivity].
        by rewrite lookup_insert_ne.
      * intros l' o Hne Hl'. by rewrite lookup_insert_ne.
    + exists w, d. split; [exact (reaches_via _ _ _ _ _ Hrun Hc)|].
      split; [done|]. split; [done|]. split; [done|]. split; [done|].
      split; [by rewrite Hcl|]. left. by repeat split.
  - destruct (rewind_input_readable w l d v body w_read Hl Hd Hr)
      as (Hrun & Hl1 & Hs' & Hne & Ht).
    set (s' := fresh (dom (heap w_read))) in *.
    set (d0 := <["wsgi.input" := VRef s']> d) in *.
    set (w0 := World _ _) in Hrun.
    assert (Hw0l : heap w0 !! l = Some (ODict d0)) by apply lookup_insert_eq.
    pose proof (coerce_content_length_run limit w0 l d0 Hw0l) as Hc.
    assert (Hcl0 : d0 !! "CONTENT_LENGTH" = d !! "CONTENT_LENGTH")
      by by apply lookup_insert_ne.
    assert (Hdom0 : dom d0 = dom d)
      by (apply dom_insert_lookup_L; by rewrite Hd).
    assert (Hfresh : heap w !! s' = None).
    { destruct (call_read_exhausts v w body w_read Hr)
        as (s & o & -> & Hs & Hh & _). rewrite Hh in Hs'.
      apply lookup_insert_None in Hs'. tauto. }
    rewrite Hcl0 in Hc.
    destruct (d !! "CONTENT_LENGTH") as [c|] eqn:Hcl.
    + eexists _, _. split; [exact (reaches_via _ _ _ _ _ Hrun Hc)|].
      unfold set_entry. cbn [heap trace].
      split; [apply lookup_insert_eq|]. split; [done|].
      split; [rewrite dom_insert_lookup_L; [done|by rewrite Hcl0]|].
      split; [intros key Hk1 Hk2; subst d0; by rewrite !lookup_insert_ne|].
      split; [by rewrite lookup_insert_eq|].
      right. exists v, body, w_read, s'. split; [done|]. split; [done|].
      split; [subst d0; rewrite lookup_insert_ne by done; apply lookup_insert_eq|].
      split; [done|]. subst w0. cbn [heap].
      split; [rewrite !lookup_insert_ne by done; apply lookup_insert_eq|].
      intros l' H1 H2. by rewrite !lookup_insert_ne.
    + exists w0, d0. split; [exact (reaches_via _ _ _ _ _ Hrun Hc)|].
      split; [done|]. split; [done|]. split; [done|].
      split; [intros key Hk1 Hk2; subst d0; by rewrite lookup_insert_ne|].
      split; [by rewrite Hcl0|].
      right. exists v, body, w_read, s'. split; [done|]. split; [done|].
      split; [subst d0; apply lookup_insert_eq|]. split; [done|].
      subst w0. cbn [heap].
      split; [rewrite lookup_insert_ne by done; apply lookup_insert_eq|].
      intros l' H1 H2. by rewrite !lookup_insert_ne.
Qed.

Lemma readable_no_fault w d v body w1 :
  d !! "wsgi.input" = Some v →
  call_read v w = (Ok (VBytes body), w1) → input_fault w d = None.
Proof.
  intros Hd Hr. unfold input_fault. rewrite Hd.
  unfold call_read, bind, deref in Hr.
  destruct v as [| | | | | |s]; try done.
  by destruct (heap w !! s) as [[]|].
Qed.

(** X1.  When reading the input stream fails, the wrapper fails with the
    same exception before the application is called, and it leaves the
    world as it found it: no entry of the environment has changed, and
    [CONTENT_LENGTH] has not been coerced. *)
Theorem faulty_input_aborts limit w l d s e :
  heap w !! l = Some (ODict d) →
  d !! "wsgi.input" = Some (VRef s) →
  heap w !! s = Some (OFaultyStream e) →
  aborts limit (VRef l) w e w.
Proof.
  intros Hl Hd Hs. apply aborts_via. by eapply rewind_input_faulty.
Qed.

Lemma faulty_input_aborts_witness :
  aborts 4300 (VRef environ_loc) faulty_request connection_reset
    faulty_request.
Proof.
  apply (faulty_input_aborts 4300 faulty_request environ_loc posted_entries
           stream_loc connection_reset); reflexivity.
Defined.

(** X2.  The wrapper consumes the stream it was given: once the
    application is reached, [wsgi.input] no longer refers to the original
    stream, and reading the original stream yields no bytes. *)
Theorem original_stream_exhausted limit w l d v body w_read :
  heap w !! l = Some (ODict d) →
  d !! "wsgi.input" = Some v →
  call_read v w = (Ok (VBytes body), w_read) →
  ∃ w',
    reaches_application limit (VRef l) w w'
    ∧ stored w' l "wsgi.input" ≠ Some v
    ∧ ∃ w'', call_read v w' = (Ok (VBytes []), w'').
Proof.
  intros Hl Hd Hr.
  pose proof (readable_no_fault w d v body w_read Hd Hr) as Hf.
  destruct (normalise_outcome limit w l d Hl Hf)
    as (w1 & d1 & Hreach & Hl1 & _ & _ & _ & _ & Hin).
  destruct Hin as [(Hu & _)|(v' & body' & w_read' & s' & Hd' & Hr' & Hin1
                             & Hfresh & Hs' & Hrest)].
  { destruct (unreadable_no_read w d v body w_read Hu Hd Hr). }
  rewrite Hd in Hd'. injection Hd' as <-. rewrite Hr in Hr'.
  injection Hr' as <- <-.
  destruct (call_read_exhausts v w body w_read Hr)
    as (s & o & -> & Hs & Hh & _ & Hagain).
  assert (s ≠ l).
  { intros ->. unfold call_read, bind, deref in Hr. by rewrite Hl in Hr. }
  assert (s ≠ s').
  { intros ->. rewrite Hfresh in Hs. by destruct Hs. }
  exists w1. split; [done|]. split.
  - unfold stored. rewrite Hl1, Hin1. congruence.
  - apply Hagain. rewrite Hrest by done. rewrite Hh. apply lookup_insert_eq.
Qed.

Lemma original_stream_exhausted_witness :
  ∃ w',
    reaches_application 4300 (VRef environ_loc) posted_request w'
    ∧ stored w' environ_loc "wsgi.input" ≠ Some (VRef stream_loc)
    ∧ ∃ w'', call_read (VRef stream_loc) w' = (Ok (VBytes []), w'').
Proof.
  apply (original_stream_exhausted 4300 posted_request environ_loc
           posted_entries (VRef stream_loc) (b "hello")
           (call_read (VRef stream_loc) posted_request).2);
    reflexivity.
Defined.

(** X3.  The wrapper neither adds nor removes a key of the environment,
    and a [CONTENT_LENGTH] it leaves behind is always an integer, never a
    string. *)
Theorem environ_keys_preserved limit w l d :
  heap w !! l = Some (ODict d) →
  input_fault w d = None →
  ∃ w' d',
    reaches_application limit (VRef l) w w'
    ∧ heap w' !! l = Some (ODict d')
    ∧ dom d' = dom d
    ∧ ∀ v, d' !! "CONTENT_LENGTH" = Some v → ∃ n, v = VInt n.
Proof.
  intros Hl Hf.
  destruct (normalise_outcome limit w l d Hl Hf)
    as (w1 & d1 & Hreach & Hl1 & _ & Hdom & _ & Hcl & _).
  exists w1, d1. split; [done|]. split; [done|]. split; [done|].
  intros v Hv. rewrite Hcl in Hv.
  destruct (d !! "CONTENT_LENGTH"); [|done]. injection Hv as <-. by eexists.
Qed.

Lemma environ_keys_preserved_witness :
  ∃ w' d',
    reaches_application 4300 (VRef environ_loc) posted_request w'
    ∧ heap w' !! environ_loc = Some (ODict d')
    ∧ dom d' = dom posted_entries
    ∧ ∀ v, d' !! "CONTENT_LENGTH" = Some v → ∃ n, v = VInt n.
Proof.
  apply (environ_keys_preserved 4300 posted_request environ_loc
           posted_entries); reflexivity.
Defined.

(** X4.  Wrapping an application twice is as good as wrapping it once:
    the application is reached, every entry other than [wsgi.input] is
    what one pass makes it, and [wsgi.input] is either the same entry or
    again an in-memory buffer at position 0 holding the same bytes. *)
Theorem normalisation_idempotent limit w l d :
  heap w !! l = Some (ODict d) →
  input_fault w d = None →
  ∃ w1 w2,
    reaches_application limit (VRef l) w w1
    ∧ (∀ (app : wsgi_app) (sr : start_response_t),
          wsgi_input_middleware limit (wsgi_input_middleware limit app)
            (VRef l) sr w
          = app (VRef l) sr w2)
    ∧ (∀ key, key ≠ "wsgi.input" → stored w2 l key = stored w1 l key)
    ∧ (stored w2 l "wsgi.input" = stored w1 l "wsgi.input"
       ∨ ∃ s1 s2 body,
           stored w1 l "wsgi.input" = Some (VRef s1)
           ∧ heap w1 !! s1 = Some (OBytesIO body 0)
           ∧ stored w2 l "wsgi.input" = Some (VRef s2)
           ∧ heap w2 !! s2 = Some (OBytesIO body 0)).
Proof.
  intros Hl Hf.
  destruct (normalise_outcome limit w l d Hl Hf)
    as (w1 & d1 & Hreach1 & Hl1 & _ & _ & _ & Hcl1 & Hin1).
  assert (Hf1 : input_fault w1 d1 = None).
  { destruct Hin1 as [(_ & _ & Hu1 & _)|(v & body & w_read & s' & _ & _ & Hd1
                                         & _ & Hs' & _)].
    - by apply unreadable_no_fault.
    - unfold input_fault. by rewrite Hd1, Hs'. }
  destruct (normalise_outcome limit w1 l d1 Hl1 Hf1)
    as (w2 & d2 & Hreach2 & Hl2 & _ & _ & Hrest2 & Hcl2 & Hin2).
  exists w1, w2. split; [done|]. split.
  { intros app sr. rewrite Hreach1. apply Hreach2. }
  unfold stored. rewrite Hl1, Hl2. split.
  - intros key Hk. destruct (decide (key = "CONTENT_LENGTH")) as [->|Hk2].
    + rewrite Hcl2, Hcl1. by destruct (d !! "CONTENT_LENGTH").
    + by apply Hrest2.
  - destruct Hin1 as [(_ & _ & Hu1 & _)|(v & body & w_read & s' & _ & _ & Hd1
                                         & _ & Hs' & _)].
    + destruct Hin2 as [(_ & Hsame & _)|(v2 & body2 & w_read2 & s2 & Hd2 & Hr2
                                         & _)]; [by left|].
      destruct (unreadable_no_read w1 d1 v2 body2 w_read2 Hu1 Hd2 Hr2).
    + destruct Hin2 as [(Hu2 & _)|(v2 & body2 & w_read2 & s2 & Hd2 & Hr2
                                   & Hd2' & _ & Hs2 & _)].
      * exfalso. destruct Hu2 as [Hn|(v0 & Hv0 & Hh)]; rewrite Hd1 in *; [done|].
        injection Hv0 as <-. unfold hasattr_read, bind, deref in Hh.
        by rewrite Hs' in Hh.
      * right. exists s', s2, body. split; [done|]. split; [done|].
        split; [done|]. rewrite Hd1 in Hd2. injection Hd2 as <-.
        unfold call_read, bind, deref in Hr2. rewrite Hs' in Hr2.
        simpl in Hr2. rewrite drop_0 in Hr2. by injection Hr2 as <- _.
Qed.

Lemma normalisation_idempotent_witness :
  ∃ w1 w2,
    reaches_application 4300 (VRef environ_loc) posted_request w1
    ∧ (∀ (app : wsgi_app) (sr : start_response_t),
          wsgi_input_middleware 4300 (wsgi_input_middleware 4300 app)
            (VRef environ_loc) sr posted_request
          = app (VRef environ_loc) sr w2)
    ∧ (∀ key, key ≠ "wsgi.input" →
              stored w2 environ_loc key = stored w1 environ_loc key)
    ∧ (stored w2 environ_loc "wsgi.input" = stored w1 environ_loc "wsgi.input"
       ∨ ∃ s1 s2 body,
           stored w1 environ_loc "wsgi.input" = Some (VRef s1)
           ∧ heap w1 !! s1 = Some (OBytesIO body 0)
           ∧ stored w2 environ_loc "wsgi.input" = Some (VRef s2)
           ∧ heap w2 !! s2 = Some (OBytesIO body 0)).
Proof.
  apply (normalisation_idempotent 4300 posted_request environ_loc
           posted_entries); reflexivity.
Defined.

(** X5.  With a non-empty origin, a header object of a built-in class
    without [extend] (a tuple, [None], text, a dictionary, ...) makes the
    callback fail with the interpreter's [AttributeError] for that class
    before [start_response] is called; nothing has changed. *)
Theorem cors_response_rejects_non_list origin sr status headers w :
  origin ≠ "" →
  has_no_extend w headers = true →
  cors_response (VStr origin) sr status headers w
  = (Raise (AttributeError
              ("'" ++ type_name w headers
               ++ "' object has no attribute 'extend'")), w)
  ∧ isinstance (AttributeError
                  ("'" ++ type_name w headers
                   ++ "' object has no attribute 'extend'"))
               "AttributeError" = true.
Proof.
  intros Ho Hn. split; [|reflexivity]. unfold cors_response.
  run (truthy_str origin w Ho).
  unfold when, list_extend, no_attribute, bind, deref, type_name.
  unfold has_no_extend in Hn.
  destruct headers as [| | | | | |hl]; try reflexivity.
  destruct (heap w !! hl) as [[]|] eqn:Hh; try discriminate Hn;
    cbv beta; by rewrite Hh.
Qed.

Lemma cors_response_rejects_non_list_witness :
  cors_response (VStr "https://example.com") refusing_start_response
    (VStr "200 OK")
    (VTuple2 (VStr "Content-Type") (VStr "text/plain")) (World ∅ [])
  = (Raise (AttributeError "'tuple' object has no attribute 'extend'"),
     World ∅ []).
Proof.
  apply (cors_response_rejects_non_list "https://example.com");
    [by vm_compute|reflexivity].
Defined.

(** X6.  The callback changes the application's own list: after a call
    that reaches the server the list holds the six CORS pairs at its end,
    and a second call with the same list appends them once more, so the
    server is then handed every CORS header twice. *)
Theorem cors_response_appends_in_place origin status hl hs w :
  origin ≠ "" →
  heap w !! hl = Some (OList hs) →
  cors_response (VStr origin) server_start_response status (VRef hl) w
  = (Ok VNone,
     World (<[hl := OList (hs ++ cors_headers (VStr origin))]> (heap w))
           (trace w ++ [ResponseStarted status
                          (hs ++ cors_headers (VStr origin))]))
  ∧ (cors_response (VStr origin) server_start_response status (VRef hl);;
     cors_response (VStr origin) server_start_response status (VRef hl))%py w
    = (Ok VNone,
       World (<[hl := OList (hs ++ cors_headers (VStr origin)
                                ++ cors_headers (VStr origin))]> (heap w))
             (trace w
              ++ [ResponseStarted status (hs ++ cors_headers (VStr origin));
                  ResponseStarted status
                    (hs ++ cors_headers (VStr origin)
                        ++ cors_headers (VStr origin))])).
Proof.
  intros Ho Hh.
  assert (Hone : ∀ w0 xs, heap w0 !! hl = Some (OList xs) →
    cors_response (VStr origin) server_start_response status (VRef hl) w0
    = (Ok VNone,
       World (<[hl := OList (xs ++ cors_headers (VStr origin))]> (heap w0))
             (trace w0 ++ [ResponseStarted status
                             (xs ++ cors_headers (VStr origin))]))).
  { intros w0 xs Hx. rewrite (cors_response_extends origin _ _ hl xs) by done.
    rewrite (server_start_response_run _ hl (xs ++ cors_headers (VStr origin))%list);
      [done|apply lookup_insert_eq]. }
  split; [by apply Hone|].
  run (Hone w hs Hh).
  rewrite (Hone _ (hs ++ cors_headers (VStr origin))%list);
    [|apply lookup_insert_eq].
  cbn [heap trace]. rewrite insert_insert_eq.
  by rewrite <- !app_assoc.
Qed.

Lemma cors_response_appends_in_place_witness :
  cors_response (VStr "https://example.com") server_start_response
    (VStr "200 OK") (VRef headers_loc) world_with_headers
  = (Ok VNone,
     World (<[headers_loc := OList (plain_headers
                                    ++ cors_headers (VStr "https://example.com"))]>
              (heap world_with_headers))
           [ResponseStarted (VStr "200 OK")
              (plain_headers ++ cors_headers (VStr "https://example.com"))]).
Proof.
  apply (cors_response_appends_in_place "https://example.com" (VStr "200 OK")
           headers_loc plain_headers world_with_headers);
    [by vm_compute|reflexivity].
Defined.

(** X7.  An [OPTIONS] request never reaches the body normalisation that
    sits under the CORS wrapper.  For every application and every
    callback, all the wrapper does is create one header list; when the
    origin is falsy it then returns [[b'']], and when the origin is truthy
    it calls the callback once, with ['200 OK'] and that list, in a world
    where every object that existed, the environment and its unread input
    stream among them, is as it was, and returns [[b'']] when the callback
    returns. *)
Theorem preflight_skips_normalisation limit app sr w l d :
  heap w !! l = Some (ODict d) →
  d !! "REQUEST_METHOD" = Some (VStr "OPTIONS") →
  let origin := default VNone (d !! "HTTP_ORIGIN") in
  let h := fresh (dom (heap w)) in
  let w1 := World (<[h := OList []]> (heap w)) (trace w) in
  heap w !! h = None
  ∧ ∃ t,
      truthy origin w1 = (Ok t, w1)
      ∧ cors_middleware (wsgi_input_middleware limit app) (VRef l) sr w
        = if t
          then match sr (VStr "200 OK") (VRef h)
                       (World (<[h := OList (cors_headers origin)]> (heap w))
                              (trace w)) with
               | (Ok _, w2) => (Ok (iter_of_list [VBytes (b "")]), w2)
               | (Raise e, w2) => (Raise e, w2)
               end
          else (Ok (iter_of_list [VBytes (b "")]), w1).
Proof.
  intros Hl Hm origin h w1. split; [apply fresh_lookup|].
  rewrite (cors_middleware_preflight _ _ w l d Hl Hm). fold origin.
  assert (Halloc : alloc (OList []) w = (Ok (VRef h), w1)) by reflexivity.
  run Halloc.
  destruct (truthy_pure origin w1) as [t Ht]. exists t. split; [done|].
  run Ht. destruct t; [|reflexivity].
  assert (Hh : heap w1 !! h = Some (OList [])) by apply lookup_insert_eq.
  unfold cors_response, bind at 1. unfold bind at 1. rewrite Ht.
  unfold when.
  run (list_extend_run w1 h [] (cors_headers origin) Hh).
  subst w1. cbn [heap trace]. rewrite insert_insert_eq, app_nil_l.
  reflexivity.
Qed.

Lemma preflight_skips_normalisation_witness :
  cors_middleware (wsgi_input_middleware 4300 hello_app) (VRef environ_loc)
    refusing_start_response
    (World (<[stream_loc := OStream (b "hello")]>
              {[ environ_loc := ODict (<["wsgi.input" := VRef stream_loc]>
                                         (options_entries None)) ]})
           [])
  = (Ok (iter_of_list [VBytes (b "")]),
     World (<[headers_loc := OList []]>
              (<[stream_loc := OStream (b "hello")]>
                 {[ environ_loc := ODict (<["wsgi.input" := VRef stream_loc]>
                                            (options_entries None)) ]}))
           []).
Proof.
  destruct (preflight_skips_normalisation 4300 hello_app
              refusing_start_response
              (World (<[stream_loc := OStream (b "hello")]>
                        {[ environ_loc :=
                             ODict (<["wsgi.input" := VRef stream_loc]>
                                      (options_entries None)) ]}) [])
              environ_loc
              (<["wsgi.input" := VRef stream_loc]> (options_entries None)))
    as (_ & t & Ht & Hrun); [reflexivity|reflexivity|].
  rewrite Hrun. by injection Ht as <-.
Defined.

(** X8.  For a request that is not [OPTIONS], the two wrappers together
    call the application on the normalised environment with a callback
    built from the origin that the request carried on entry; the
    normalisation does not touch the [Origin] entry. *)
Theorem wrappers_compose limit app sr w l d :
  heap w !! l = Some (ODict d) →
  input_fault w d = None →
  d !! "REQUEST_METHOD" ≠ Some (VStr "OPTIONS") →
  ∃ w',
    reaches_application limit (VRef l) w w'
    ∧ cors_middleware (wsgi_input_middleware limit app) (VRef l) sr w
      = app (VRef l)
            (cors_response (default VNone (d !! "HTTP_ORIGIN")) sr) w'
    ∧ stored w' l "HTTP_ORIGIN" = d !! "HTTP_ORIGIN"
    ∧ stored w' l "REQUEST_METHOD" = d !! "REQUEST_METHOD".
Proof.
  intros Hl Hf Hm.
  destruct (normalise_outcome limit w l d Hl Hf)
    as (w1 & d1 & Hreach & Hl1 & _ & _ & Hrest & _).
  exists w1. split; [done|]. split.
  - rewrite (cors_middleware_forward _ sr w l d Hl Hm). apply Hreach.
  - unfold stored. rewrite Hl1. split; by apply Hrest.
Qed.

Lemma wrappers_compose_witness :
  ∃ w',
    reaches_application 4300 (VRef environ_loc)
      (request (get_entries (Some "https://example.com"))) w'
    ∧ cors_middleware (wsgi_input_middleware 4300 hello_app)
        (VRef environ_loc) server_start_response
        (request (get_entries (Some "https://example.com")))
      = hello_app (VRef environ_loc)
          (cors_response
             (default VNone
                (get_entries (Some "https://example.com") !! "HTTP_ORIGIN"))
             server_start_response) w'
    ∧ stored w' environ_loc "HTTP_ORIGIN"
      = get_entries (Some "https://example.com") !! "HTTP_ORIGIN"
    ∧ stored w' environ_loc "REQUEST_METHOD"
      = get_entries (Some "https://example.com") !! "REQUEST_METHOD".
Proof.
  apply (wrappers_compose 4300 hello_app server_start_response
           (request (get_entries (Some "https://example.com"))) environ_loc
           (get_entries (Some "https://example.com")));
    [reflexivity|reflexivity|by vm_compute].
Defined.

(** X9.  Run on the two wrappers around a handler, warmup calls the
    handler once, with its own do-nothing callback and on the normalised
    request: [CONTENT_LENGTH] is the integer 2 and [wsgi.input] is a
    buffer at position 0 that holds the two bytes of [{}].  The CORS
    wrapper adds nothing, since the request has no origin. *)
Theorem warmup_reaches_inner_handler limit django w :
  ∃ environ input w2,
    stored w2 environ "REQUEST_METHOD" = Some (VStr "POST")
    ∧ stored w2 environ "PATH_INFO" = Some (VStr "/graphql/")
    ∧ stored w2 environ "CONTENT_LENGTH" = Some (VInt 2)
    ∧ stored w2 environ "wsgi.input" = Some (VRef input)
    ∧ heap w2 !! input = Some (OBytesIO [x7b; x7d] 0)
    ∧ trace w2 = trace w
    ∧ warmup_application
        (cors_middleware (wsgi_input_middleware limit django)) w
      = match call_and_consume django (VRef environ) warmup_start_response w2
        with
        | (Ok _, w3) => (Ok tt, w3)
        | (Raise e, w3) =>
            if isinstance e "Exception"
            then (Ok tt, World (heap w3) (trace w3 ++ [warmup_warning e]))
            else (Raise e, w3)
        end.
Proof.
  destruct (build_warmup_environ_run w)
    as (errors & server_name & input0 & environ & w1 & Hb & He & Hi & _ & _
        & _ & _ & Ht).
  set (d := warmup_environ (VRef errors) (VRef server_name) (VRef input0)) in *.
  assert (Hin : d !! "wsgi.input" = Some (VRef input0)) by reflexivity.
  assert (Hf : input_fault w1 d = None).
  { unfold input_fault. by rewrite Hin, Hi. }
  destruct (normalise_outcome limit w1 environ d He Hf)
    as (w2 & d2 & Hreach & Hl2 & Ht2 & _ & Hrest & Hcl & Hcase).
  destruct Hcase as [(Hu & _)|(v & body & w_read & s' & Hv & Hr & Hin2 & _
                               & Hs' & _)].
  { exfalso. eapply (unreadable_no_read w1 d (VRef input0)); [done|done|].
    unfold call_read, bind, deref. by rewrite Hi. }
  rewrite Hin in Hv. injection Hv as <-.
  unfold call_read, bind, deref in Hr. rewrite Hi in Hr. simpl in Hr.
  injection Hr as <- _.
  exists environ, s', w2. unfold stored. rewrite Hl2.
  split; [by rewrite Hrest|]. split; [by rewrite Hrest|].
  split; [by rewrite Hcl|]. split; [done|]. split; [done|].
  split; [congruence|].
  rewrite (warmup_application_run _ w _ w1 Hb).
  assert (Hcall :
    call_and_consume (cors_middleware (wsgi_input_middleware limit django))
      (VRef environ) warmup_start_response w1
    = call_and_consume django (VRef environ) warmup_start_response w2).
  { unfold call_and_consume, bind.
    rewrite (cors_middleware_forward _ _ w1 environ d He) by done.
    by rewrite Hreach. }
  by rewrite Hcall.
Qed.

(** X10.  [warmup_application] lets no instance of [Exception] out, so the
    [except] branch around its module-level call never runs: whatever the
    handler and the health-check wrapper are, the module-level statement
    has exactly the outcome of [warmup_application(application)], and the
    record "Application warmup failed" is never logged. *)
Theorem module_init_is_warmup limit django hc w :
  module_init limit django hc w
  = warmup_application (application limit django hc) w.
Proof.
  destruct (build_warmup_environ_run w)
    as (errors & server_name & input & environ & w1 & Hb & _).
  unfold module_init, try_except.
  rewrite (warmup_application_run _ w _ w1 Hb).
  destruct (call_and_consume _ _ _ w1) as [[chunks|e] w2]; [done|].
  destruct (isinstance e "Exception") eqn:He; [done|].
  simpl. by rewrite He.
Qed.

Lemma parse_int_uint_over limit d :
  d ≠ Decimal.Nil →
  exceeds_digit_limit limit (Decimal.nb_digits d) = true →
  parse_int limit is_str_space (uint_chars d) = None
  ∧ parse_int limit is_str_space ("-"%char :: uint_chars d) = None.
Proof.
  intros Hd Hx.
  destruct (uint_chars_head d Hd) as (c & r & Hcr & Hs & Hp & Hm & Hu).
  rewrite Hcr, parse_int_scan, parse_int_scan_neg by done.
  rewrite <- Hcr, scan_digits_uint. simpl.
  destruct (Nat.eqb_spec (Decimal.nb_digits d) 0) as [H0|_]; [done|].
  by rewrite Hx.
Qed.

Lemma py_int_over_limit limit z :
  (640 < String.length (str_of_Z (Z.abs z)))%nat →
  (0 < limit < String.length (str_of_Z (Z.abs z)))%nat →
  py_int limit (VStr (str_of_Z z))
  = Raise (ValueError "invalid literal for int() with base 10").
Proof.
  intros H640 Hlim.
  assert (Hpos : ∀ p,
    (640 < String.length (str_of_Z (Z.pos p)))%nat →
    (0 < limit < String.length (str_of_Z (Z.pos p)))%nat →
    str_of_Z (Z.pos p) = NilEmpty.string_of_uint (Pos.to_uint p)
    ∧ exceeds_digit_limit limit (Decimal.nb_digits (Pos.to_uint p)) = true).
  { intros p H1 H2. unfold str_of_Z in *. cbn [Z.to_int NilZero.string_of_int] in *.
    rewrite string_of_uint_nonnil in * by apply DecimalPos.Unsigned.to_uint_nonnil.
    split; [done|].
    rewrite <- uint_chars_length. unfold uint_chars.
    rewrite length_list_ascii_of_string. unfold exceeds_digit_limit.
    destruct (Nat.ltb_spec 640 (String.length
               (NilEmpty.string_of_uint (Pos.to_uint p)))); [|lia].
    destruct (Nat.ltb_spec 0 limit); [|lia].
    destruct (Nat.ltb_spec limit (String.length
               (NilEmpty.string_of_uint (Pos.to_uint p)))); [done|lia]. }
  destruct z as [|p|p].
  - exfalso. vm_compute in H640. lia.
  - destruct (Hpos p H640 Hlim) as [Hstr Hx]. simpl py_int. rewrite Hstr.
    destruct (parse_int_uint_over limit (Pos.to_uint p)) as [Hn _];
      [apply DecimalPos.Unsigned.to_uint_nonnil|done|].
    unfold uint_chars in Hn. by rewrite Hn.
  - destruct (Hpos p H640 Hlim) as [Hstr Hx]. simpl py_int.
    unfold str_of_Z in *. cbn [Z.to_int NilZero.string_of_int] in *.
    rewrite Hstr. cbn [list_ascii_of_string].
    destruct (parse_int_uint_over limit (Pos.to_uint p)) as [_ Hn];
      [apply DecimalPos.Unsigned.to_uint_nonnil|done|].
    unfold uint_chars in Hn. by rewrite Hn.
Qed.

(** X11.  A [CONTENT_LENGTH] numeral with more digits than the
    interpreter converts is not an error for the wrapper: it is replaced
    by zero, like any text that [int()] rejects. *)
Theorem oversized_content_length_becomes_zero limit w l d z :
  heap w !! l = Some (ODict d) →
  input_fault w d = None →
  d !! "CONTENT_LENGTH" = Some (VStr (str_of_Z z)) →
  (640 < String.length (str_of_Z (Z.abs z)))%nat →
  (0 < limit < String.length (str_of_Z (Z.abs z)))%nat →
  ∃ w',
    reaches_application limit (VRef l) w w'
    ∧ stored w' l "CONTENT_LENGTH" = Some (VInt 0).
Proof.
  intros Hl Hf Hcl H640 Hlim.
  destruct (normalise_outcome limit w l d Hl Hf)
    as (w1 & d1 & Hreach & Hl1 & _ & _ & _ & Hcl1 & _).
  exists w1. split; [done|]. unfold stored. rewrite Hl1, Hcl1, Hcl. simpl.
  unfold coerced. by rewrite py_int_over_limit.
Qed.

Lemma oversized_content_length_becomes_zero_witness :
  ∃ w',
    reaches_application 700 (VRef environ_loc) (request huge_entries) w'
    ∧ stored w' environ_loc "CONTENT_LENGTH" = Some (VInt 0).
Proof.
  apply (oversized_content_length_becomes_zero 700 (request huge_entries)
           environ_loc huge_entries huge_length);
    [reflexivity|reflexivity|reflexivity|vm_compute; lia|vm_compute; lia].
Defined.
